(** * BoviCare RAG pipeline: retrieval, rerank, synthesis

    A shallow embedding of [RAG/rag.py], [RAG/rag_service.py],
    [RAG/vector_service.py] and of the model-scoring reranker of
    [RAG/test_vetbench_healthbench_style.py], with the properties the
    specification states about them.

    Python values are embedded as follows: a [str] is the list of its
    Unicode code points, a record ([Dict[str, Any]]) is a finite map from
    field names to values, a [float] is a binary64 machine float, and a call
    that may raise returns a [result].  What lives outside the repository
    (the sentence encoder, the vector store client, the chat model, the
    Unicode tables) is a [Variable] of the section that uses it. *)

From Stdlib Require Import ZArith NArith List Ascii String Floats DecimalString.
From Stdlib Require DecimalPos DecimalZ.
From stdpp Require Import base option list gmap strings.

Set Default Proof Using "Type".

(** ** Strings *)

Abbreviation char := N (only parsing).
Abbreviation str := (list N) (only parsing).

(** Literals are written as in the Python source; the file is UTF-8, so a
    literal is decoded from its bytes to code points. *)
Fixpoint utf8_decode (s : string) : str :=
  match s with
  | EmptyString => []
  | String a0 s1 =>
    let b0 := N_of_ascii a0 in
    if (b0 <? 128)%N then b0 :: utf8_decode s1
    else match s1 with
    | EmptyString => [b0]
    | String a1 s2 =>
      let b1 := (N_of_ascii a1 - 128)%N in
      if (b0 <? 224)%N then ((b0 - 192) * 64 + b1)%N :: utf8_decode s2
      else match s2 with
      | EmptyString => [b0]
      | String a2 s3 =>
        let b2 := (N_of_ascii a2 - 128)%N in
        if (b0 <? 240)%N
        then ((b0 - 224) * 4096 + b1 * 64 + b2)%N :: utf8_decode s3
        else match s3 with
        | EmptyString => [b0]
        | String a3 s4 =>
          let b3 := (N_of_ascii a3 - 128)%N in
          ((b0 - 240) * 262144 + b1 * 4096 + b2 * 64 + b3)%N :: utf8_decode s4
        end
      end
    end
  end.

Abbreviation lit s := (utf8_decode s%string) (only parsing).

Definition SPACE : char := 32%N.
Definition POINT : char := 46%N.

(** [str.isspace] on one code point: the characters [str.strip()] removes. *)
Definition py_isspace (c : char) : bool :=
  ((9 <=? c) && (c <=? 13) || (28 <=? c) && (c <=? 32)
   || (c =? 133) || (c =? 160) || (c =? 5760)
   || (8192 <=? c) && (c <=? 8202)
   || (c =? 8232) || (c =? 8233) || (c =? 8239) || (c =? 8287)
   || (c =? 12288))%N.

Fixpoint lstrip (s : str) : str :=
  match s with
  | c :: s' => if py_isspace c then lstrip s' else s
  | [] => []
  end.

Definition rstrip (s : str) : str := rev (lstrip (rev s)).

(** [s.strip()] *)
Definition strip (s : str) : str := rstrip (lstrip s).

(** [sep.join(parts)] *)
Fixpoint join (sep : str) (parts : list str) : str :=
  match parts with
  | [] => []
  | [p] => p
  | p :: ps => p ++ sep ++ join sep ps
  end.

(** [s.rsplit(sep, 1)] for a one-character separator: split at the last
    occurrence of [sep], or the one-element list [[s]] when there is none. *)
Fixpoint rsplit1 (sep : char) (s : str) : list str :=
  match s with
  | [] => [[]]
  | c :: s' =>
    match rsplit1 sep s' with
    | [h; t] => [c :: h; t]
    | _ => if (c =? sep)%N then [[]; s'] else [s]
    end
  end.

(** [l[:k]] with Python's reading of a negative bound. *)
Definition slice_to {A} (k : Z) (l : list A) : list A :=
  if (0 <=? k)%Z then take (Z.to_nat k) l
  else take (length l - Z.to_nat (- k)) l.

(** Decimal notation of an integer, as [str(n)] and [f"{n}"] print it. *)
Definition str_of_int (z : Z) : str :=
  utf8_decode (NilZero.string_of_int (Z.to_int z)).

(** ** Values, records and exceptions *)

Inductive pyval : Type :=
  | VNone
  | VStr (s : str)
  | VInt (z : Z)
  | VFloat (f : float).

Inductive exn : Type :=
  | TypeError
  | AttributeError
  | KeyError
  | External (tag : nat).

Inductive result (A : Type) : Type :=
  | Ok (a : A)
  | Raise (e : exn).
Arguments Ok {A} a.
Arguments Raise {A} e.

#[global] Instance result_ret : MRet result := fun A a => Ok a.
#[global] Instance result_bind : MBind result := fun A B f m =>
  match m with Ok a => f a | Raise e => Raise e end.
#[global] Instance result_fmap : FMap result := fun A B f m =>
  match m with Ok a => Ok (f a) | Raise e => Raise e end.

(** [for i, x in enumerate(l)] with a body that may raise, collecting the
    results. *)
Fixpoint mapM_from {A B} (f : nat -> A -> result B) (i : nat) (l : list A)
  : result (list B) :=
  match l with
  | [] => Ok []
  | x :: l' => y ← f i x; ys ← mapM_from f (S i) l'; Ok (y :: ys)
  end.

(** A record is a dictionary keyed by field name. *)
Abbreviation doc := (gmap string pyval) (only parsing).

(** [d.get(key, dflt)] *)
Definition get_or (d : doc) (key : string) (dflt : pyval) : pyval :=
  default dflt (d !! key).

(** Truth value of a Python object ([not x] is its negation). *)
Definition truthy (v : pyval) : bool :=
  match v with
  | VNone => false
  | VStr s => negb (bool_decide (s = []))
  | VInt z => negb (z =? 0)%Z
  | VFloat f => negb (f =? 0)%float
  end.

(** [len(v)]: defined on strings only. *)
Definition py_len (v : pyval) : result nat :=
  match v with
  | VStr s => Ok (length s)
  | _ => Raise TypeError
  end.

(** [v[:k]]: defined on strings only. *)
Definition py_slice_to (k : Z) (v : pyval) : result str :=
  match v with
  | VStr s => Ok (slice_to k s)
  | _ => Raise TypeError
  end.

(** ** Sorting by a float key, highest first

    [list.sort(key=..., reverse=True)] and [sorted(..., reverse=True)]
    compare keys with [<] only and are stable.  On keys that are not NaN,
    [<] is a strict weak order, and the result is the one list that is in
    descending order and keeps, for every key, the elements of that key in
    their input order ([sort_desc_unique] below); the stable insertion sort
    computes it.  A comparison with NaN is always false, and where
    [list.sort] leaves the elements of a list with a NaN key depends on its
    runs and merges, which are not modelled: with such a key the two agree
    on the elements of the result only, not on their order, and every
    statement below about the order of a sorted list is made for keys that
    are not NaN. *)

(** [x == x], which fails for NaN only. *)
Definition not_nan (x : float) : bool := (x =? x)%float.

Section SortDesc.
Context {A : Type} (key : A -> float).

Fixpoint insert_desc (x : A) (l : list A) : list A :=
  match l with
  | [] => [x]
  | y :: l' =>
    if (key x <? key y)%float then y :: insert_desc x l' else x :: y :: l'
  end.

Definition sort_desc (l : list A) : list A := foldr insert_desc [] l.
End SortDesc.

(** ** rag.py *)
Section Rag.
(** [embedding_model.encode(text, normalize_embeddings=True)] of the
    module-level sentence encoder, and [float(util.cos_sim(a, b))]. *)
Variable encode : pyval -> result (list float).
Variable cos_sim : list float -> list float -> float.
(** [repr] of a float, for f-strings. *)
Variable float_repr : float -> str.

(** [str(v)], also what [f"{v}"] prints. *)
Definition py_str (v : pyval) : str :=
  match v with
  | VNone => lit "None"
  | VStr s => s
  | VInt z => str_of_int z
  | VFloat f => float_repr f
  end.

(** The loop of [rerank_documents_with_similarity] that fills
    [scored_docs]; a document whose text is missing or falsy is skipped. *)
Fixpoint score_by_similarity (query_embedding : list float)
    (documents : list doc) : result (list (float * doc)) :=
  match documents with
  | [] => Ok []
  | d :: rest =>
    let text := get_or d "section_text" (VStr []) in
    if negb (truthy text) then score_by_similarity query_embedding rest
    else
      doc_embedding ← encode text;
      let score := cos_sim query_embedding doc_embedding in
      scored ← score_by_similarity query_embedding rest;
      Ok ((score, d) :: scored)
  end.

Definition rerank_documents_with_similarity (query : str)
    (documents : list doc) : result (list doc) :=
  match documents with
  | [] => Ok []
  | _ =>
    query_embedding ← encode (VStr query);
    scored_docs ← score_by_similarity query_embedding documents;
    Ok ((sort_desc fst scored_docs).*2)
  end.

Definition NO_INFO_MESSAGE : str :=
  lit "Não encontrei informações relevantes para responder a essa pergunta na base de diagnóstico.".

Definition DEFAULT_DISEASE_NAME : str := lit "Doença não identificada".
Definition DEFAULT_SECTION : str := lit "seção".
Definition ELLIPSIS : str := lit "...".

(** [if len(snippet) > 400: snippet = snippet[:400].rsplit(" ", 1)[0] + "..."] *)
Definition truncate_snippet (snippet : pyval) : result pyval :=
  n ← py_len snippet;
  if 400 <? n then
    prefix ← py_slice_to 400 snippet;
    Ok (VStr (hd [] (rsplit1 SPACE prefix) ++ ELLIPSIS))
  else Ok snippet.

(** One pass of the loop over [context_docs[:3]]. *)
Definition citation_block (d : doc) : result str :=
  let name := get_or d "disease_name" (VStr DEFAULT_DISEASE_NAME) in
  let section := get_or d "section_type" (VStr DEFAULT_SECTION) in
  snippet ← truncate_snippet (get_or d "section_text" (VStr []));
  Ok (lit "• Fonte: " ++ py_str name ++ lit " (" ++ py_str section
      ++ lit ")" ++ [10; 32; 32]%N ++ py_str snippet).

Definition generate_rag_response (query : str) (context_docs : list doc)
  : result str :=
  match context_docs with
  | [] => Ok NO_INFO_MESSAGE
  | _ =>
    let header :=
      lit "Resumo das principais informações encontradas sobre '"
      ++ query ++ lit "':" in
    blocks ← mapM_from (fun _ => citation_block) 0 (take 3 context_docs);
    Ok (join [10; 10]%N
          ([header] ++ blocks ++
           [lit "Recomendo avaliar as fontes citadas acima para detalhes adicionais."]))
  end.
End Rag.

(** ** The model-scoring reranker of test_vetbench_healthbench_style.py *)

(** [min(a, b)] and [max(a, b)] keep their first argument unless the second
    one is strictly smaller (resp. greater). *)
Definition py_min (a b : float) : float := if (b <? a)%float then b else a.
Definition py_max (a b : float) : float := if (a <? b)%float then b else a.

(** [max(0.0, min(1.0, score))] *)
Definition clamp_score (score : float) : float :=
  py_max 0%float (py_min 1%float score).

Definition DEFAULT_SCORE : float := 0.5%float.

(** [d[key]] *)
Definition subscript (d : doc) (key : string) : result pyval :=
  match d !! key with
  | Some v => Ok v
  | None => Raise KeyError
  end.

(** [v.strip()]: a method of strings only. *)
Definition py_strip (v : pyval) : result str :=
  match v with
  | VStr s => Ok (strip s)
  | _ => Raise AttributeError
  end.

Section ModelRerank.
(** [\d] of the [re] module on [str] patterns: the Unicode decimal digits. *)
Variable is_decimal : char -> bool.
(** [float(token)] on a token matched by the pattern below (digits, an
    optional point, digits), which [float] always accepts. *)
Variable float_of_str : str -> float.
(** [model_client.chat_completion(messages=...)]; the first argument is
    the position of the scoring task in the batch, since the model need
    not answer equal prompts equally. *)
Variable chat_completion : nat -> list doc -> result doc.

Fixpoint take_digits (s : str) : str :=
  match s with
  | c :: s' => if is_decimal c then c :: take_digits s' else []
  | [] => []
  end.

Fixpoint drop_digits (s : str) : str :=
  match s with
  | c :: s' => if is_decimal c then drop_digits s' else s
  | [] => []
  end.

(** [re.search] for one or more digits, an optional point and any number
    of digits, returning the matched group: the leftmost match starts at
    the first digit and every quantifier is greedy. *)
Fixpoint re_search_number (s : str) : option str :=
  match s with
  | [] => None
  | c :: s' =>
    if is_decimal c then
      match drop_digits s with
      | c' :: rest =>
        if (c' =? POINT)%N
        then Some (take_digits s ++ [POINT] ++ take_digits rest)
        else Some (take_digits s)
      | [] => Some (take_digits s)
      end
    else re_search_number s'
  end.

Definition scoring_messages (query doc_text : str) : list doc :=
  [ {[ "role" := VStr (lit "system");
       "content" := VStr (lit "You are a helpful assistant.") ]};
    {[ "role" := VStr (lit "user");
       "content" := VStr
         (lit "Rate the relevance of this document to the query from 0.0 to 1.0. Query: "
          ++ query ++ lit ". Document: " ++ doc_text
          ++ lit ". Respond with just a number.") ]} ].

(** The inner [try] block of [score_document]. *)
Definition request_score (query : str) (i : nat) (doc_text : str)
  : result float :=
  response ← chat_completion i (scoring_messages query doc_text);
  content ← subscript response "content";
  score_text ← py_strip content;
  match re_search_number score_text with
  | Some number => Ok (clamp_score (float_of_str number))
  | None => Ok DEFAULT_SCORE
  end.

Definition score_document (query : str) (i : nat) (d : doc)
  : result (float * doc) :=
  doc_text ← py_slice_to 1000 (get_or d "section_text" (VStr []));
  match request_score query i doc_text with
  | Ok score => Ok (score, d)
  | Raise _ => Ok (DEFAULT_SCORE, d)
  end.

(** [asyncio.gather] returns the results in the order of the tasks and
    raises when one of them does. *)
Definition score_all (query : str) (documents : list doc)
  : result (list (float * doc)) :=
  mapM_from (score_document query) 0 documents.

Definition _rerank_documents_with_model (query : str)
    (documents : list doc) : list doc :=
  match score_all query documents with
  | Ok scored_docs => (sort_desc fst scored_docs).*2
  | Raise _ => documents
  end.
End ModelRerank.

(** ** vector_service.py *)

(** A record as [insert_documents] hands it to the store. *)
Record row : Type := {
  row_id : str;
  row_document_id : str;
  row_disease_type : str;
  row_disease_name : str;
  row_disease_id : str;
  row_chunk_id : str;
  row_chunk_index : str;
  row_section_type : str;
  row_page_number : str;
  row_section_text : str;
  row_dense_vector : list float
}.

(** A search hit of the store client: [hit.get('entity', {})] and
    [hit.get("distance", 0.0)] read these two keys. *)
Record hit : Type := {
  hit_entity : option doc;
  hit_distance : option pyval
}.

(** A [VectorService] instance with the collaborators it holds:
    [embedding_model] stands for
    [self.embedding_model.encode(text, normalize_embeddings=True).tolist()],
    the [client_] fields for the methods of [self.client]. *)
Record VectorService : Type := {
  collection_name : str;
  embedding_model : str -> result (list float);
  embedding_dim : nat;
  client_search : list float -> Z -> result (list (list hit));
  client_insert : list row -> result unit;
  client_close : result unit
}.

Definition _get_dense_embedding (self : VectorService) (text : pyval)
  : result (list float) :=
  stripped ← py_strip text;
  if bool_decide (stripped = []) then Ok (repeat 0%float (embedding_dim self))
  else
    match text with
    | VStr s => embedding_model self s
    | _ => Raise TypeError
    end.

Section VectorServiceFormat.
Variable float_repr : float -> str.

Definition CHUNK_PREFIX : str := lit "chunk_".

(** The [try] body of the loop of [insert_documents] for the record at
    position [i] of the batch. *)
Definition prepare_document (self : VectorService) (i : nat) (d : doc)
  : result row :=
  let field key := py_str float_repr (get_or d key (VStr [])) in
  dense_vector ← _get_dense_embedding self (get_or d "section_text" (VStr []));
  let chunk_id := strip (field "chunk_id") in
  let chunk_id :=
    match chunk_id with
    | [] => CHUNK_PREFIX ++ str_of_int (Z.of_nat i + 1)
    | _ => chunk_id
    end in
  Ok {| row_id := chunk_id;
        row_document_id := field "document_id";
        row_disease_type := field "disease_type";
        row_disease_name := field "disease_name";
        row_disease_id := field "disease_id";
        row_chunk_id := chunk_id;
        row_chunk_index := field "chunk_index";
        row_section_type := field "section_type";
        row_page_number := field "page_number";
        row_section_text := field "section_text";
        row_dense_vector := dense_vector |}.

(** The list [data] after the loop: a record whose preparation raises is
    logged and skipped. *)
Fixpoint prepare_data (self : VectorService) (i : nat) (documents : list doc)
  : list row :=
  match documents with
  | [] => []
  | d :: rest =>
    match prepare_document self i d with
    | Ok r => r :: prepare_data self (S i) rest
    | Raise _ => prepare_data self (S i) rest
    end
  end.

Definition insert_documents (self : VectorService) (documents : list doc)
  : bool :=
  match documents with
  | [] => false
  | _ =>
    match prepare_data self 0 documents with
    | [] => false
    | data =>
      match client_insert self data with
      | Ok _ => true
      | Raise _ => false
      end
    end
  end.
End VectorServiceFormat.

Definition document_of_hit (h : hit) : doc :=
  let entity := default ∅ (hit_entity h) in
  let field key := get_or entity key (VStr []) in
  {[ "document_id" := field "document_id";
     "disease_type" := field "disease_type";
     "disease_name" := field "disease_name";
     "disease_id" := field "disease_id";
     "chunk_id" := field "chunk_id";
     "chunk_index" := field "chunk_index";
     "section_type" := field "section_type";
     "page_number" := field "page_number";
     "section_text" := field "section_text";
     "score" := default (VFloat 0%float) (hit_distance h) ]}.

Definition hybrid_search (self : VectorService) (query : str) (top_k : Z)
  : result (list doc) :=
  query_embedding ← _get_dense_embedding self (VStr query);
  results ← client_search self query_embedding top_k;
  match results with
  | hits :: _ => Ok (map document_of_hit hits)
  | [] => Ok []
  end.

(** ** rag_service.py *)

Record Source : Type := {
  src_disease_name : pyval;
  src_section_type : pyval;
  src_page_number : pyval;
  content_preview : str
}.

Record AnswerResult : Type := {
  answer : str;
  sources : list Source
}.

Record RAGService : Type := {
  vector_service : option VectorService;
  top_k_default : Z
}.

(** [RAGService(top_k_default)] and [RAGService()]. *)
Definition RAGService_init (top_k_default : Z) : RAGService :=
  {| vector_service := None; top_k_default := top_k_default |}.
Definition RAGService_default : RAGService := RAGService_init 5.

(** The operations [ask] invokes, recorded when they are entered. *)
Inductive call : Type :=
  | CallStartup
  | CallHybridSearch (query : str) (top_k : Z)
  | CallRerank (query : str) (documents : list doc)
  | CallGenerate (query : str) (context_docs : list doc).

(** The state a method of [RAGService] runs in: the object and the calls
    made so far (oldest first). *)
Record machine : Type := {
  service : RAGService;
  calls : list call
}.

Definition M (A : Type) : Type := machine -> result A * machine.

#[global] Instance M_ret : MRet M := fun A a m => (Ok a, m).
#[global] Instance M_bind : MBind M := fun A B f c m =>
  match c m with
  | (Ok a, m') => f a m'
  | (Raise e, m') => (Raise e, m')
  end.

Definition get_self : M RAGService := fun m => (Ok (service m), m).
Definition set_vector_service (v : option VectorService) : M unit := fun m =>
  (Ok tt, {| service := {| vector_service := v;
                           top_k_default := top_k_default (service m) |};
             calls := calls m |}).
Definition enter (c : call) : M unit := fun m =>
  (Ok tt, {| service := service m; calls := calls m ++ [c] |}).
Definition lift {A} (r : result A) : M A := fun m => (r, m).

(** [top_k or self.top_k_default] *)
Definition top_k_or (top_k : option Z) (dflt : Z) : Z :=
  match top_k with
  | Some k => if (k =? 0)%Z then dflt else k
  | None => dflt
  end.

Definition FALLBACK_MESSAGE : str :=
  lit "Não encontrei informações relevantes na base de diagnóstico.".

Definition source_of (d : doc) : result Source :=
  preview ← py_slice_to 200 (get_or d "section_text" (VStr []));
  Ok {| src_disease_name := get_or d "disease_name" VNone;
        src_section_type := get_or d "section_type" VNone;
        src_page_number := get_or d "page_number" VNone;
        content_preview := preview |}.

Section RagService.
Variable encode : pyval -> result (list float).
Variable cos_sim : list float -> list float -> float.
Variable float_repr : float -> str.
(** [VectorService()] and [VectorService.initialize]. *)
Variable VectorService_new : result VectorService.
Variable initialize : VectorService -> result unit.

Definition startup : M unit :=
  self ← get_self;
  match vector_service self with
  | None =>
    enter CallStartup;;
    vs ← lift VectorService_new;
    set_vector_service (Some vs);;
    lift (initialize vs)
  | Some _ => mret tt
  end.

Definition shutdown : M unit :=
  self ← get_self;
  match vector_service self with
  | Some vs =>
    let _ := client_close vs in
    set_vector_service None
  | None => mret tt
  end.

(** [self.vector_service.hybrid_search(...)]; the attribute is set once
    [startup] has returned. *)
Definition search (query : str) (top_k : Z) : M (list doc) :=
  self ← get_self;
  enter (CallHybridSearch query top_k);;
  match vector_service self with
  | Some vs => lift (hybrid_search vs query top_k)
  | None => lift (Raise AttributeError)
  end.

Definition ask (query : str) (top_k : option Z) : M AnswerResult :=
  self ← get_self;
  (if vector_service self is None then startup else mret tt);;
  let top_k := top_k_or top_k (top_k_default self) in
  documents ← search query (top_k * 2);
  match documents with
  | [] => mret {| answer := FALLBACK_MESSAGE; sources := [] |}
  | _ =>
    enter (CallRerank query documents);;
    ranked ← lift (rerank_documents_with_similarity encode cos_sim query documents);
    let selected := slice_to top_k ranked in
    enter (CallGenerate query selected);;
    answer ← lift (generate_rag_response float_repr query selected);
    sources ← lift (mapM_from (fun _ => source_of) 0 selected);
    mret {| answer := answer; sources := sources |}
  end.
End RagService.

(** ** Predicates on records and runs *)

(** The documents the similarity strategy scores: those with a text that
    is present and truthy. *)
Definition has_text (d : doc) : bool :=
  truthy (get_or d "section_text" (VStr [])).

(** A record whose text is absent or a string, as the chunks of the data
    model are. *)
Definition text_absent_or_str (d : doc) : Prop :=
  match d !! "section_text" with
  | None | Some (VStr _) => True
  | Some _ => False
  end.

(** A record lacks a chunk id when the field is missing, empty or made of
    whitespace only. *)
Definition lacks_chunk_id (d : doc) : Prop :=
  match d !! "chunk_id" with
  | None => True
  | Some (VStr s) => Forall (λ c, py_isspace c) s
  | Some _ => False
  end.

(** Whether a run of the service returned. *)
Definition returned {A} (run : result A * machine) : bool :=
  match run.1 with Ok _ => true | Raise _ => false end.

(** ** A sample deployment

    A small knowledge base and stand-ins for the external collaborators, on
    which the operations above can be run. *)
Module Sample.
(** An encoder that maps a text to one coordinate, higher for a text of
    more than 20 characters, and the similarity that reads it. *)
Definition encode (v : pyval) : result (list float) :=
  match v with
  | VStr s => Ok [if 20 <? length s then 0.75%float else 0.5%float]
  | _ => Raise TypeError
  end.
Definition cos_sim (query_embedding doc_embedding : list float) : float :=
  hd 0%float doc_embedding.
Definition float_repr (f : float) : str := lit "0.0".

Definition is_decimal (c : char) : bool := ((48 <=? c) && (c <=? 57))%N.
Definition float_of_str (s : str) : float :=
  if bool_decide (s = lit "0.75") then 0.75%float
  else if bool_decide (s = lit "7") then 7%float
  else 0%float.

Definition reply (content : string) : result doc :=
  Ok {[ "content" := VStr (lit content) ]}.

(** A model that fails on the first task, gives no number on the second,
    and answers the others. *)
Definition chat_completion (i : nat) (messages : list doc) : result doc :=
  match i with
  | 0 => Raise (External 503)
  | 1 => reply "not sure"
  | 2 => reply " score: 0.75 "
  | _ => reply "7"
  end.

Definition chunk (chunk_id name text : string) : doc :=
  {[ "chunk_id" := VStr (lit chunk_id);
     "disease_name" := VStr (lit name);
     "section_type" := VStr (lit "sintomas");
     "page_number" := VStr (lit "12");
     "section_text" := VStr (lit text) ]}.

Definition mastite : doc := chunk "c1" "Mastite" "Inflamação do úbere.".
Definition bvd : doc := chunk "c2" "BVD" "Diarreia viral bovina.".
Definition brucelose : doc :=
  chunk "c3" "Brucelose" "Aborto no terço final da gestação.".
Definition untexted : doc := chunk "c4" "Raiva" "".

Definition long_word : str := replicate 401 97%N.
Definition long_text : str := mjoin (replicate 100 (lit "vaca ")).

Definition hit_of (d : doc) : hit :=
  {| hit_entity := Some d; hit_distance := Some (VFloat 0.75%float) |}.

(** A store client that answers every search with the first [limit]
    records of [corpus]. *)
Definition vector_service_on (corpus : list doc) : VectorService :=
  {| collection_name := lit "BoviCareDocuments";
     embedding_model := λ _, Ok [1%float];
     embedding_dim := 384;
     client_search := λ _ limit, Ok [map hit_of (slice_to limit corpus)];
     client_insert := λ _, Ok tt;
     client_close := Ok tt |}.

Definition corpus : list doc :=
  [mastite; bvd; brucelose; untexted; mastite; bvd; brucelose; mastite;
   bvd; brucelose; mastite; bvd].

Definition initialize (vs : VectorService) : result unit := Ok tt.

Definition fresh : machine :=
  {| service := RAGService_default; calls := [] |}.

(** [ask] on a fresh service over the given corpus. *)
Definition ask_on (corpus : list doc) (q : string) (top_k : option Z)
  : result AnswerResult * machine :=
  ask encode cos_sim float_repr (Ok (vector_service_on corpus)) initialize
    (lit q) top_k fresh.
End Sample.

(** ** Order of a ranked list *)

(** No entry of [l] is directly followed by one with a strictly greater
    key. *)
Definition descending {A} (key : A -> float) (l : list A) : Prop :=
  forall i x y, l !! i = Some x -> l !! (S i) = Some y ->
    (key x <? key y)%float = false.

(** [l'] holds, for every key, the elements of [l] with that key in the
    order they have in [l]. *)
Definition keeps_ties {A} (key : A -> float) (l l' : list A) : Prop :=
  forall k : float,
    filter (fun x => (key x =? k)%float) l'
    = filter (fun x => (key x =? k)%float) l.

(** [s] is the similarity score of the record [d] for the query embedding
    [qe]: the cosine of [qe] and the embedding of the text of [d]. *)
Definition similarity_of (encode : pyval -> result (list float))
    (cos_sim : list float -> list float -> float)
    (qe : list float) (d : doc) (s : float) : Prop :=
  exists emb, encode (get_or d "section_text" (VStr [])) = Ok emb /\
              s = cos_sim qe emb.

(** No record of the batch has a NaN similarity to the query. *)
Definition similarities_not_nan (encode : pyval -> result (list float))
    (cos_sim : list float -> list float -> float)
    (q : str) (docs : list doc) : Prop :=
  forall qe d emb,
    encode (VStr q) = Ok qe -> d ∈ docs ->
    encode (get_or d "section_text" (VStr [])) = Ok emb ->
    not_nan (cos_sim qe emb) = true.

(** ** Predicates on the vector service *)

(** Whether [_get_dense_embedding] returns for the text of a record. *)
Definition embeds (self : VectorService) (d : doc) : bool :=
  match _get_dense_embedding self (get_or d "section_text" (VStr [])) with
  | Ok _ => true
  | Raise _ => false
  end.

(** The keys of a document returned by [hybrid_search]. *)
Definition SEARCH_KEYS : gset string :=
  list_to_set
    ["document_id"; "disease_type"; "disease_name"; "disease_id"; "chunk_id";
     "chunk_index"; "section_type"; "page_number"; "section_text"; "score"]%string.

(** ** vector_service.py: collection setup *)

Inductive DataType : Type := VARCHAR | FLOAT_VECTOR.

(** One [schema.add_field(...)]. *)
Record FieldSchema : Type := {
  field_name : string;
  datatype : DataType;
  max_length : option Z;
  is_primary : bool;
  enable_analyzer : bool;
  dim : option nat
}.

Record CollectionSchema : Type := {
  auto_id : bool;
  enable_dynamic_field : bool;
  fields : list FieldSchema
}.

(** One [index_params.add_index(...)]. *)
Record IndexParam : Type := {
  index_field_name : string;
  index_type : string;
  metric_type : string;
  nlist : Z
}.

Definition varchar (name : string) (len : Z) : FieldSchema :=
  {| field_name := name; datatype := VARCHAR; max_length := Some len;
     is_primary := false; enable_analyzer := false; dim := None |}.

(** The schema [_setup_collection] builds. *)
Definition collection_schema (self : VectorService) : CollectionSchema :=
  {| auto_id := false;
     enable_dynamic_field := true;
     fields :=
       [ {| field_name := "id"; datatype := VARCHAR; max_length := Some 256%Z;
            is_primary := true; enable_analyzer := false; dim := None |};
         varchar "document_id" 256;
         varchar "disease_type" 256;
         varchar "disease_name" 512;
         varchar "disease_id" 256;
         varchar "chunk_id" 256;
         varchar "chunk_index" 256;
         varchar "section_type" 256;
         varchar "page_number" 256;
         {| field_name := "section_text"; datatype := VARCHAR;
            max_length := Some 65535%Z; is_primary := false;
            enable_analyzer := true; dim := None |};
         {| field_name := "dense_vector"; datatype := FLOAT_VECTOR;
            max_length := None; is_primary := false;
            enable_analyzer := false; dim := Some (embedding_dim self) |} ] |}.

Definition collection_index : list IndexParam :=
  [ {| index_field_name := "dense_vector"; index_type := "IVF_FLAT";
       metric_type := "IP"; nlist := 128 |} ].

(** The administrative methods of [self.client], each with the outcome
    the store gives it. *)
Record MilvusAdmin : Type := {
  has_collection : str -> result bool;
  describe_collection : str -> result unit;
  drop_collection : str -> result unit;
  create_collection :
    str -> CollectionSchema -> list IndexParam -> result unit
}.

(** The calls [_setup_collection] makes on the client. *)
Inductive admin_call : Type :=
  | HasCollection (name : str)
  | DescribeCollection (name : str)
  | DropCollection (name : str)
  | CreateCollection (name : str) (schema : CollectionSchema)
      (index_params : list IndexParam).

(** A computation on the client: its outcome and the calls made. *)
Definition Admin (A : Type) : Type := result A * list admin_call.

#[global] Instance Admin_ret : MRet Admin := fun A a => (Ok a, []).
#[global] Instance Admin_bind : MBind Admin := fun A B f c =>
  match c with
  | (Ok a, log) => let '(r, log') := f a in (r, log ++ log')
  | (Raise e, log) => (Raise e, log)
  end.

Definition invoke {A} (c : admin_call) (outcome : result A) : Admin A :=
  (outcome, [c]).

(** [try: body except Exception: handler] *)
Definition try_except {A} (body : Admin A) (handler : Admin A) : Admin A :=
  match body with
  | (Ok a, log) => (Ok a, log)
  | (Raise _, log) => let '(r, log') := handler in (r, log ++ log')
  end.

Definition _setup_collection (self : VectorService) (client : MilvusAdmin)
  : Admin unit :=
  let name := collection_name self in
  has ← invoke (HasCollection name) (has_collection client name);
  has ← (if has : bool then
           try_except
             (invoke (DescribeCollection name) (describe_collection client name);;
              mret true)
             (invoke (DropCollection name) (drop_collection client name);;
              mret false)
         else mret false);
  if negb has then
    invoke (CreateCollection name (collection_schema self) collection_index)
      (create_collection client name (collection_schema self) collection_index)
  else mret tt.

(** [VectorService.initialize] *)
Definition VectorService_initialize (self : VectorService)
    (client : MilvusAdmin) : Admin unit :=
  _setup_collection self client.

(** ** test_vetbench_healthbench_style.py: the benchmark wrapper *)

Record BenchSource : Type := {
  bench_disease_name : pyval;
  bench_disease_type : pyval;
  bench_chunk_index : pyval;
  bench_section_type : pyval;
  bench_page_number : pyval;
  bench_relevance_score : pyval;
  bench_content_preview : str
}.

(** The dictionary [ask] returns; [bench_response] is whatever the model
    put under ["content"], or a message of [ask] itself. *)
Record BenchAnswer : Type := {
  bench_response : pyval;
  bench_sources : list BenchSource
}.

Definition NOT_FOUND_MESSAGE : str :=
  lit "I couldn't find any relevant information about that query in our bovine disease database.".

Definition INDENT : str := lit "            ".

Section Bench.
Variable float_repr : float -> str.
(** [str(e)] for a caught exception. *)
Variable exn_message : exn -> str.
Variable is_decimal : char -> bool.
Variable float_of_str : str -> float.
(** The scoring calls of the reranker, by position in the batch, and the
    one call that generates the answer. *)
Variable chat_completion : nat -> list doc -> result doc.
Variable chat_answer : list doc -> result doc.

(** [f"Document {i+1}: {doc.get('section_text', '')}"] *)
Definition context_entry (i : nat) (d : doc) : str :=
  lit "Document " ++ str_of_int (Z.of_nat i + 1) ++ lit ": "
  ++ py_str float_repr (get_or d "section_text" (VStr [])).

Definition answer_prompt (context query : str) : str :=
  join [10]%N
    [ [];
      INDENT ++ lit "You are an expert veterinary medicine Q&A assistant specializing in bovine diseases. ";
      INDENT ++ lit "Use the following context to answer the user's question about bovine diseases.";
      INDENT ++ lit "If the context does not contain the answer, state that you could not find the information.";
      INDENT ++ lit "Provide accurate, helpful information based on the veterinary literature provided.";
      [];
      INDENT ++ lit "Context:";
      INDENT ++ lit "---";
      INDENT ++ context;
      INDENT ++ lit "---";
      [];
      INDENT ++ lit "Question: " ++ [34]%N ++ query ++ [34]%N;
      INDENT;
      INDENT ++ lit "Answer:";
      INDENT ].

Definition answer_messages (context query : str) : list doc :=
  [ {[ "role" := VStr (lit "system");
       "content" := VStr
         (lit "You are an expert veterinary medicine assistant specializing in bovine diseases. Provide accurate, helpful information based on the veterinary literature provided.") ]};
    {[ "role" := VStr (lit "user");
       "content" := VStr (answer_prompt context query) ]} ].

Definition _generate_rag_response_with_model (query : str)
    (context_docs : list doc) : pyval :=
  let context := join [10; 10]%N (imap context_entry context_docs) in
  match (response ← chat_answer (answer_messages context query);
         subscript response "content") with
  | Ok content => content
  | Raise e => VStr (lit "Error generating response: " ++ exn_message e)
  end.

(** [text[:200] + "..." if len(text) > 200 else text] *)
Definition bench_preview (text : pyval) : result str :=
  n ← py_len text;
  if 200 <? n then
    prefix ← py_slice_to 200 text;
    Ok (prefix ++ lit "...")
  else
    match text with
    | VStr s => Ok s
    | _ => Raise TypeError
    end.

Definition bench_source_of (d : doc) : result BenchSource :=
  preview ← bench_preview (get_or d "section_text" (VStr []));
  Ok {| bench_disease_name := get_or d "disease_name" (VStr (lit "N/A"));
        bench_disease_type := get_or d "disease_type" (VStr (lit "N/A"));
        bench_chunk_index := get_or d "chunk_index" (VStr (lit "N/A"));
        bench_section_type := get_or d "section_type" (VStr (lit "N/A"));
        bench_page_number := get_or d "page_number" (VStr (lit "N/A"));
        bench_relevance_score := get_or d "score" (VFloat 0%float);
        bench_content_preview := preview |}.

(** The [try] body of [BoviCareRAGSystemHealthBenchStyle.ask]. *)
Definition bench_ask_body (vector_service : VectorService) (query : str)
    (use_reranking : bool) : result BenchAnswer :=
  search_results ← hybrid_search vector_service query 6;
  match search_results with
  | [] => Ok {| bench_response := VStr NOT_FOUND_MESSAGE; bench_sources := [] |}
  | _ =>
    let final_results :=
      if use_reranking then
        slice_to 3 (_rerank_documents_with_model is_decimal float_of_str
                      chat_completion query search_results)
      else slice_to 3 search_results in
    let response_text :=
      _generate_rag_response_with_model query final_results in
    sources ← mapM_from (fun _ => bench_source_of) 0 final_results;
    Ok {| bench_response := response_text; bench_sources := sources |}
  end.

Definition bench_ask (vector_service : VectorService) (query : str)
    (use_reranking : bool) : BenchAnswer :=
  match bench_ask_body vector_service query use_reranking with
  | Ok answer => answer
  | Raise e =>
    {| bench_response := VStr (lit "Error processing query: " ++ exn_message e);
       bench_sources := [] |}
  end.
End Bench.

(** ** diagnose/context.py *)

Inductive LLMProvider : Type :=
  | OPEN_AI | GEMINI | GROK | HUGGING_FACE | DEEP_SEEK.

(** The exceptions of [DiagnoseContext.__init__]: those it raises itself
    and those of the client constructor. *)
Inductive context_exn : Type :=
  | ProviderKeyError
  | NotImplementedError
  | ClientError (e : exn).

(** [LLMProvider[name]]: lookup of a member by its name. *)
Definition LLMProvider_getitem (name : pyval) : option LLMProvider :=
  match name with
  | VStr s =>
    if bool_decide (s = lit "OPEN_AI") then Some OPEN_AI
    else if bool_decide (s = lit "GEMINI") then Some GEMINI
    else if bool_decide (s = lit "GROK") then Some GROK
    else if bool_decide (s = lit "HUGGING_FACE") then Some HUGGING_FACE
    else if bool_decide (s = lit "DEEP_SEEK") then Some DEEP_SEEK
    else None
  | _ => None
  end.

Section Diagnose.
(** The chat client and its constructor
    [ChatOpenAI(api_key=..., model=..., temperature=0, cache=None)]. *)
Variable LLM : Type.
Variable ChatOpenAI : pyval -> pyval -> result LLM.

Record DiagnoseContext : Type := {
  llm_provider : LLMProvider;
  llm_provider_model : pyval;
  llm_provider_key : pyval;
  llm : LLM
}.

Definition get_llm (provider : LLMProvider) (model key : pyval)
  : context_exn + LLM :=
  match provider with
  | OPEN_AI =>
    match ChatOpenAI key model with
    | Ok client => inr client
    | Raise e => inl (ClientError e)
    end
  | _ => inl NotImplementedError
  end.

(** [DiagnoseContext(llm_provider, llm_provider_model, llm_provider_key)] *)
Definition DiagnoseContext_init (provider model key : pyval)
  : context_exn + DiagnoseContext :=
  match LLMProvider_getitem provider with
  | None => inl ProviderKeyError
  | Some p =>
    match get_llm p model key with
    | inl e => inl e
    | inr client =>
      inr {| llm_provider := p; llm_provider_model := model;
             llm_provider_key := key; llm := client |}
    end
  end.
End Diagnose.

(** ** Further sample data *)

(** Whether a call returned. *)
Definition succeeded {A} (r : result A) : bool :=
  match r with Ok _ => true | Raise _ => false end.

Module Scenario.
(** A record whose text is [None]. *)
Definition untyped : doc := <[ "section_text" := VNone ]> Sample.bvd.

Definition ranked_batch : list doc :=
  [Sample.bvd; Sample.brucelose; Sample.mastite].

(** A service on the sample corpus, and one whose store refuses every
    search. *)
Definition ready_service : VectorService :=
  Sample.vector_service_on Sample.corpus.

Definition failing_service : VectorService :=
  {| collection_name := lit "BoviCareDocuments";
     embedding_model := fun _ => Ok [1%float];
     embedding_dim := 384;
     client_search := fun _ _ => Raise (External 7);
     client_insert := fun _ => Ok tt;
     client_close := Raise (External 8) |}.

Definition ready : machine :=
  {| service := {| vector_service := Some ready_service; top_k_default := 5 |};
     calls := [CallStartup] |}.

Definition stopped : machine :=
  {| service := {| vector_service := None; top_k_default := 5 |};
     calls := [CallStartup] |}.

Definition failing_initialize (vs : VectorService) : result unit :=
  Raise (External 9).

(** A store in which the collection exists and can be described. *)
Definition healthy_store : MilvusAdmin :=
  {| has_collection := fun _ => Ok true;
     describe_collection := fun _ => Ok tt;
     drop_collection := fun _ => Raise (External 1);
     create_collection := fun _ _ _ => Raise (External 2) |}.

Definition run_ask (m : machine) (q : string) (top_k : option Z)
  : result AnswerResult * machine :=
  ask Sample.encode Sample.cos_sim Sample.float_repr (Ok ready_service)
    Sample.initialize (lit q) top_k m.
End Scenario.

(** * Properties *)

(** ** Floats *)

Lemma float_eqb_not_ltb (x y : float) :
  (x =? y)%float = true → (x <? y)%float = false.
Proof.
  rewrite FloatAxioms.eqb_spec, FloatAxioms.ltb_spec.
  unfold SFeqb, SFltb. by destruct (SFcompare _ _) as [[]|].
Qed.

Lemma float_ltb_leb (x y : float) :
  (x <? y)%float = true → (x <=? y)%float = true.
Proof.
  rewrite FloatAxioms.ltb_spec, FloatAxioms.leb_spec.
  unfold SFleb, SFltb. by destruct (SFcompare _ _) as [[]|].
Qed.

(** Comparison of the floats by cases on their specification. *)
Ltac sf_compare :=
  repeat match goal with
  | H : context [Z.compare ?a ?b] |- _ =>
    destruct (Z.compare_spec a b); subst; simpl in H
  | |- context [Z.compare ?a ?b] =>
    destruct (Z.compare_spec a b); subst; simpl
  | H : context [Pos.compare_cont Eq ?a ?b] |- _ =>
    change (Pos.compare_cont Eq a b) with (Pos.compare a b) in H;
    destruct (Pos.compare_spec a b); subst; simpl in H
  | |- context [Pos.compare_cont Eq ?a ?b] =>
    change (Pos.compare_cont Eq a b) with (Pos.compare a b);
    destruct (Pos.compare_spec a b); subst; simpl
  end; try done; try lia.

Lemma SFltb_negtrans (a b c : spec_float) :
  SFeqb b b = true → SFltb a b = false → SFltb b c = false →
  SFltb a c = false.
Proof.
  unfold SFeqb, SFltb.
  destruct a as [[]|[]| |[] ma ea], b as [[]|[]| |[] mb eb],
    c as [[]|[]| |[] mc ec]; simpl; try done; intros _; sf_compare.
Qed.

Lemma SFltb_trichotomy (a b : spec_float) :
  SFeqb a a = true → SFeqb b b = true →
  SFltb a b = false → SFltb b a = false → SFeqb a b = true.
Proof.
  unfold SFeqb, SFltb.
  destruct a as [[]|[]| |[] ma ea], b as [[]|[]| |[] mb eb];
    simpl; try done; intros _ _; sf_compare.
Qed.

Lemma SFeqb_defined (a b : spec_float) :
  SFeqb a b = true →
  SFeqb a a = true ∧ SFeqb b b = true ∧
  SFltb a b = false ∧ SFltb b a = false.
Proof.
  unfold SFeqb, SFltb.
  destruct a as [[]|[]| |[] ma ea], b as [[]|[]| |[] mb eb];
    simpl; try done; sf_compare;
    rewrite ?Z.compare_refl, ?Pos.compare_cont_refl; simpl; done.
Qed.

Lemma SFleb_defined (a b : spec_float) :
  SFleb a b = true → SFeqb a a = true ∧ SFeqb b b = true.
Proof.
  unfold SFeqb, SFleb.
  destruct a as [[]|[]| |[] ma ea], b as [[]|[]| |[] mb eb];
    simpl; try done; intros _;
    rewrite ?Z.compare_refl, ?Pos.compare_cont_refl; simpl; done.
Qed.

Lemma SFltb_leb_total (a b : spec_float) :
  SFeqb a a = true → SFeqb b b = true →
  SFltb a b = false → SFleb b a = true.
Proof.
  unfold SFeqb, SFltb, SFleb.
  destruct a as [[]|[]| |[] ma ea], b as [[]|[]| |[] mb eb];
    simpl; try done; intros _ _; sf_compare.
Qed.

(** On floats that are not NaN, [<] is a strict weak order. *)
Lemma float_ltb_negtrans (a b c : float) :
  not_nan b = true →
  (a <? b)%float = false → (b <? c)%float = false → (a <? c)%float = false.
Proof.
  unfold not_nan. rewrite FloatAxioms.eqb_spec, !FloatAxioms.ltb_spec.
  apply SFltb_negtrans.
Qed.

Lemma float_not_ltb_eqb (a b : float) :
  not_nan a = true → not_nan b = true →
  (a <? b)%float = false → (b <? a)%float = false → (a =? b)%float = true.
Proof.
  unfold not_nan. rewrite !FloatAxioms.eqb_spec, !FloatAxioms.ltb_spec.
  apply SFltb_trichotomy.
Qed.

Lemma float_eqb_defined (a b : float) :
  (a =? b)%float = true →
  not_nan a = true ∧ not_nan b = true ∧
  (a <? b)%float = false ∧ (b <? a)%float = false.
Proof.
  unfold not_nan. rewrite !FloatAxioms.eqb_spec, !FloatAxioms.ltb_spec.
  apply SFeqb_defined.
Qed.

Lemma float_leb_not_nan (a b : float) :
  (a <=? b)%float = true → not_nan a = true ∧ not_nan b = true.
Proof.
  unfold not_nan. rewrite !FloatAxioms.eqb_spec, FloatAxioms.leb_spec.
  apply SFleb_defined.
Qed.

Lemma float_not_ltb_leb (a b : float) :
  not_nan a = true → not_nan b = true →
  (a <? b)%float = false → (b <=? a)%float = true.
Proof.
  unfold not_nan. rewrite !FloatAxioms.eqb_spec, FloatAxioms.ltb_spec,
    FloatAxioms.leb_spec.
  apply SFltb_leb_total.
Qed.

Lemma clamp_score_range (x : float) :
  (0 <=? clamp_score x)%float = true ∧ (clamp_score x <=? 1)%float = true.
Proof.
  unfold clamp_score, py_min, py_max.
  destruct (x <? 1)%float eqn:Hhi.
  - destruct (0 <? x)%float eqn:Hlo; [|done].
    split; by apply float_ltb_leb.
  - by replace (0 <? 1)%float with true by reflexivity.
Qed.

(** ** The result monad *)

Lemma bind_Ok {A B} (f : A → result B) (m : result A) (b : B) :
  m ≫= f = Ok b ↔ ∃ a, m = Ok a ∧ f a = Ok b.
Proof.
  destruct m as [a|e]; simpl; split.
  - intros H. eexists. by split.
  - by intros (? & [= <-] & ?).
  - done.
  - by intros (? & ? & ?).
Qed.

Lemma bind_Raise {A B} (f : A → result B) (m : result A) (e : exn) :
  m ≫= f = Raise e ↔ m = Raise e ∨ ∃ a, m = Ok a ∧ f a = Raise e.
Proof.
  destruct m as [a|e']; simpl; split.
  - intros H. right. eexists. by split.
  - by intros [?|(? & [= <-] & ?)].
  - intros [= ->]. by left.
  - by intros [[= ->]|(? & ? & ?)].
Qed.

Lemma mapM_from_Ok {A B} (f : nat → A → result B) i l l' :
  mapM_from f i l = Ok l' →
  Forall2 (λ x y, ∃ j, f j x = Ok y) l l'.
Proof.
  revert i l'. induction l as [|x l IH]; intros i l'; simpl.
  - intros [= <-]. constructor.
  - destruct (f i x) as [y|] eqn:Hy; [simpl|done].
    destruct (mapM_from f (S i) l) as [ys|] eqn:Hys; [simpl|done].
    intros [= <-]. constructor; eauto.
Qed.

Lemma mapM_from_lookup {A B} (f : nat → A → result B) i l l' :
  mapM_from f i l = Ok l' →
  length l' = length l ∧
  ∀ j x, l !! j = Some x → ∃ y, l' !! j = Some y ∧ f (i + j) x = Ok y.
Proof.
  revert i l'. induction l as [|x l IH]; intros i l'; simpl.
  - intros [= <-]. by split.
  - destruct (f i x) as [y|] eqn:Hy; [simpl|done].
    destruct (mapM_from f (S i) l) as [ys|] eqn:Hys; [simpl|done].
    intros [= <-]. destruct (IH _ _ Hys) as [Hlen Hget].
    split; [simpl; by rewrite Hlen|].
    intros [|j] x'; simpl.
    + intros [= <-]. exists y. by rewrite Nat.add_0_r.
    + intros Hx. destruct (Hget j x' Hx) as (y' & ? & ?).
      exists y'. by rewrite <-Nat.add_succ_comm.
Qed.

Lemma mapM_from_total {A B} (f : nat → A → result B) i l :
  Forall (λ x, ∀ j, ∃ y, f j x = Ok y) l → ∃ l', mapM_from f i l = Ok l'.
Proof.
  intros H. revert i. induction H as [|x l Hx _ IH]; intros i; simpl; [eauto|].
  destruct (Hx i) as [y ->]. destruct (IH (S i)) as [ys ->]. simpl. eauto.
Qed.

(** ** Sorting *)
Section SortDescFacts.
Context {A : Type} (key : A → float).

Lemma insert_desc_perm x l : insert_desc key x l ≡ₚ x :: l.
Proof.
  induction l as [|y l IH]; simpl; [done|].
  destruct (key x <? key y)%float; [|done].
  rewrite IH. apply Permutation_swap.
Qed.

Lemma sort_desc_perm l : sort_desc key l ≡ₚ l.
Proof.
  induction l as [|x l IH]; simpl; [done|].
  by rewrite insert_desc_perm, IH.
Qed.

Lemma insert_desc_sublist x l : l `sublist_of` insert_desc key x l.
Proof.
  induction l as [|y l IH]; simpl.
  - apply sublist_nil_l.
  - destruct (key x <? key y)%float.
    + by apply sublist_skip.
    + by apply sublist_cons.
Qed.

(** The inserted element stays in front of every element whose key is not
    strictly greater. *)
Lemma insert_desc_before x y l :
  y ∈ l → (key x <? key y)%float = false →
  [x; y] `sublist_of` insert_desc key x l.
Proof.
  intros Hy Hxy. induction l as [|z l IH]; simpl.
  - by apply elem_of_nil in Hy.
  - destruct (key x <? key z)%float eqn:Hxz.
    + apply sublist_cons, IH.
      apply elem_of_cons in Hy as [->|Hy]; [congruence|done].
    + apply sublist_skip. by apply singleton_sublist_l.
Qed.

(** Stability: an element stays in front of a later one unless the later
    one has a strictly greater key. *)
Lemma sort_desc_stable x y l :
  [x; y] `sublist_of` l → (key x <? key y)%float = false →
  [x; y] `sublist_of` sort_desc key l.
Proof.
  intros Hsub Hxy. induction l as [|z l IH]; simpl.
  - by apply sublist_nil_r in Hsub.
  - apply sublist_cons_r in Hsub as [Hsub|(l' & [= <- <-] & Hy)].
    + etrans; [by apply IH|]. apply insert_desc_sublist.
    + apply insert_desc_before; [|done].
      apply singleton_sublist_l in Hy.
      by rewrite sort_desc_perm.
Qed.
End SortDescFacts.

(** ** Reranking *)

Section RerankFacts.
Variable encode : pyval → result (list float).
Variable cos_sim : list float → list float → float.
Variable is_decimal : char → bool.
Variable float_of_str : str → float.
Variable chat_completion : nat → list doc → result doc.

Lemma score_by_similarity_docs qe docs scored :
  score_by_similarity encode cos_sim qe docs = Ok scored →
  scored.*2 = filter (λ d, has_text d) docs.
Proof.
  revert scored. induction docs as [|d docs IH]; intros scored; simpl.
  - by intros [= <-].
  - rewrite filter_cons.
    destruct (decide (has_text d)) as [Ht|Ht]; unfold has_text in Ht.
    + apply Is_true_true in Ht. rewrite Ht; simpl.
      intros (emb & _ & (rest & Hrest & [= <-])%bind_Ok)%bind_Ok.
      simpl. f_equal. by apply IH.
    + apply Is_true_false in Ht. rewrite Ht; simpl. apply IH.
Qed.

Lemma score_by_similarity_Raise qe docs e :
  score_by_similarity encode cos_sim qe docs = Raise e →
  ∃ d, d ∈ docs ∧ has_text d ∧
       encode (get_or d "section_text" (VStr [])) = Raise e.
Proof.
  induction docs as [|d docs IH]; simpl; [done|].
  destruct (truthy _) eqn:Ht; simpl.
  - intros [Henc|(emb & _ & [Hrest|(? & _ & [=])]%bind_Raise)]%bind_Raise.
    + exists d. split_and!; [left|by unfold has_text; rewrite Ht|done].
    + destruct (IH Hrest) as (d' & ? & ? & ?).
      exists d'. split_and!; [by right|done..].
  - intros Hrest. destruct (IH Hrest) as (d' & ? & ? & ?).
    exists d'. split_and!; [by right|done..].
Qed.

Lemma rerank_similarity_nonempty q docs :
  docs ≠ [] →
  rerank_documents_with_similarity encode cos_sim q docs =
  (qe ← encode (VStr q);
   scored ← score_by_similarity encode cos_sim qe docs;
   Ok ((sort_desc fst scored).*2)).
Proof. by destruct docs. Qed.

Lemma score_document_doc q i d p :
  score_document is_decimal float_of_str chat_completion q i d = Ok p →
  p.2 = d.
Proof.
  unfold score_document. intros (text & _ & Hp)%bind_Ok.
  by destruct (request_score _ _ _ _ _ _) in Hp; injection Hp as <-.
Qed.

Lemma score_all_docs q docs scored :
  score_all is_decimal float_of_str chat_completion q docs = Ok scored →
  scored.*2 = docs.
Proof.
  unfold score_all. intros H%mapM_from_Ok.
  induction H as [|d p docs scored [j Hp] _ IH]; simpl; [done|].
  f_equal; [by eapply score_document_doc|done].
Qed.

Lemma rerank_model_perm q docs :
  _rerank_documents_with_model is_decimal float_of_str chat_completion
    q docs ≡ₚ docs.
Proof.
  unfold _rerank_documents_with_model.
  destruct (score_all _ _ _ _ _) as [scored|] eqn:Hs; [|done].
  rewrite (sort_desc_perm fst scored). by rewrite (score_all_docs _ _ _ Hs).
Qed.

Lemma rerank_similarity_cases (q : str) (docs : list doc) :
  match rerank_documents_with_similarity encode cos_sim q docs with
  | Ok ranked => ranked ≡ₚ filter (λ d, has_text d) docs
  | Raise e =>
    docs ≠ [] ∧
    (encode (VStr q) = Raise e ∨
     ∃ d, d ∈ docs ∧ has_text d ∧
          encode (get_or d "section_text" (VStr [])) = Raise e)
  end.
Proof.
  destruct docs as [|d0 docs]; [by simpl|].
  rewrite rerank_similarity_nonempty by done.
  destruct (_ ≫= _) as [ranked|e] eqn:H.
  - apply bind_Ok in H as (qe & _ & (scored & Hs & [= <-])%bind_Ok).
    rewrite (sort_desc_perm fst scored).
    by rewrite (score_by_similarity_docs _ _ _ Hs).
  - split; [done|].
    apply bind_Raise in H as [Hq|(qe & _ & [Hs|(? & _ & [=])]%bind_Raise)].
    + by left.
    + right. by apply score_by_similarity_Raise in Hs.
Qed.

(** C1 (amended). The model-scoring strategy returns a permutation of
    its input.  The similarity strategy returns a permutation of the
    input documents whose [section_text] is present and non-empty: the
    others are dropped, none is added; it raises only when the encoder
    does, on the query or on one of those texts. *)
Theorem rerank_permutation_of_scored_documents (q : str) (docs : list doc) :
  _rerank_documents_with_model is_decimal float_of_str chat_completion
    q docs ≡ₚ docs ∧
  match rerank_documents_with_similarity encode cos_sim q docs with
  | Ok ranked => ranked ≡ₚ filter (λ d, has_text d) docs
  | Raise e =>
    docs ≠ [] ∧
    (encode (VStr q) = Raise e ∨
     ∃ d, d ∈ docs ∧ has_text d ∧
          encode (get_or d "section_text" (VStr [])) = Raise e)
  end.
Proof. split; [apply rerank_model_perm|apply rerank_similarity_cases]. Qed.

Lemma score_document_not_nan q i d p :
  score_document is_decimal float_of_str chat_completion q i d = Ok p →
  not_nan p.1 = true.
Proof.
  unfold score_document. intros (text & _ & Hp)%bind_Ok.
  destruct (request_score _ _ _ _ _ _) as [s|] eqn:Hreq;
    injection Hp as <-; simpl; [|done].
  unfold request_score in Hreq.
  apply bind_Ok in Hreq as (? & _ & (? & _ & (? & _ & Hs)%bind_Ok)%bind_Ok).
  destruct (re_search_number _ _); injection Hs as <-; [|done].
  apply (float_leb_not_nan 0), clamp_score_range.
Qed.

(** The scores of the model strategy are 0.5 or clamped: never NaN. *)
Lemma score_all_not_nan q docs scored :
  score_all is_decimal float_of_str chat_completion q docs = Ok scored →
  Forall (λ p, not_nan p.1 = true) scored.
Proof.
  unfold score_all. intros H%mapM_from_Ok.
  induction H as [|d p docs scored [j Hp] _ IH]; constructor; [|done].
  by eapply score_document_not_nan.
Qed.

(** C6. Under both strategies, when two scored documents have exactly
    equal scores and the first stands before the second in the scored
    list (which is in input order), the first stands before the second in
    the reranked output.  Under the similarity strategy this is stated for
    a batch in which no similarity is NaN; the scores of the model
    strategy never are. *)
Theorem rerank_ties_keep_input_order (q : str) (docs : list doc)
    (s1 s2 : float) (d1 d2 : doc) :
  (s1 =? s2)%float = true →
  (∀ qe scored,
      encode (VStr q) = Ok qe →
      score_by_similarity encode cos_sim qe docs = Ok scored →
      Forall (λ p, not_nan p.1 = true) scored →
      [(s1, d1); (s2, d2)] `sublist_of` scored →
      scored.*2 `sublist_of` docs ∧
      ∃ ranked,
        rerank_documents_with_similarity encode cos_sim q docs = Ok ranked ∧
        [d1; d2] `sublist_of` ranked) ∧
  (∀ scored,
      score_all is_decimal float_of_str chat_completion q docs = Ok scored →
      [(s1, d1); (s2, d2)] `sublist_of` scored →
      Forall (λ p, not_nan p.1 = true) scored ∧
      scored.*2 = docs ∧
      [d1; d2] `sublist_of`
        _rerank_documents_with_model is_decimal float_of_str
          chat_completion q docs).
Proof.
  intros Heq%float_eqb_not_ltb. split.
  - intros qe scored Hq Hs _ Hsub. split.
    { rewrite (score_by_similarity_docs _ _ _ Hs). apply sublist_filter. }
    rewrite rerank_similarity_nonempty.
    2: { intros ->. injection Hs as <-. by apply sublist_nil_r in Hsub. }
    rewrite Hq; simpl. rewrite Hs. eexists; split; [done|].
    change [d1; d2] with ([(s1, d1); (s2, d2)].*2).
    by apply fmap_sublist, sort_desc_stable.
  - intros scored Hs Hsub.
    split; [by eapply score_all_not_nan|]. split; [by eapply score_all_docs|].
    unfold _rerank_documents_with_model. rewrite Hs.
    change [d1; d2] with ([(s1, d1); (s2, d2)].*2).
    by apply fmap_sublist, sort_desc_stable.
Qed.
End RerankFacts.

(** ** Strings *)

Lemma rsplit1_spec (sep : char) (s : str) :
  ((sep ∉ s) ∧ rsplit1 sep s = [s]) ∨
  (∃ h t, rsplit1 sep s = [h; t] ∧ s = h ++ sep :: t ∧ sep ∉ t).
Proof.
  induction s as [|c s IH]; simpl.
  - left. split; [apply not_elem_of_nil|done].
  - destruct IH as [[Hnot ->]|(h & t & -> & -> & Ht)].
    + destruct (N.eqb_spec c sep) as [->|Hne].
      * right. by exists [], s.
      * left. split; [|done]. rewrite not_elem_of_cons. by split.
    + right. by exists (c :: h), t.
Qed.

Lemma app_assoc6 {A} (a b c d e f g : list A) :
  a ++ b ++ c ++ d ++ e ++ f ++ g = (a ++ b ++ c ++ d ++ e ++ f) ++ g.
Proof. by rewrite <-!app_assoc. Qed.

Lemma slice_to_nonneg {A} (k : Z) (l : list A) :
  (0 ≤ k)%Z → slice_to k l = take (Z.to_nat k) l.
Proof. intros Hk. unfold slice_to. by rewrite (proj2 (Z.leb_le 0 k)). Qed.

Lemma lstrip_blank (s : str) : Forall (λ c, py_isspace c) s → lstrip s = [].
Proof.
  induction 1 as [|c s Hc _ IH]; simpl; [done|].
  by rewrite (Is_true_true_1 _ Hc).
Qed.

Lemma strip_blank (s : str) : Forall (λ c, py_isspace c) s → strip s = [].
Proof. intros Hs. unfold strip, rstrip. by rewrite (lstrip_blank s Hs). Qed.

(** ** Synthesis *)

Section SynthesisFacts.
Variable float_repr : float → str.

(** C2 (amended). For a text longer than 400 characters the snippet is a
    prefix of the text, of at most 400 characters, followed by the
    three-character ellipsis marker, so at most 403 characters in all.
    When the first 400 characters contain a space character, the prefix
    stops just before the last of them; when they contain none, it is
    the first 400 characters.  The citation block of a record with that
    text ends with this snippet. *)
Theorem snippet_cut_at_last_space (s : str) :
  400 < length s →
  ∃ body,
    truncate_snippet (VStr s) = Ok (VStr (body ++ ELLIPSIS)) ∧
    length body ≤ 400 ∧
    length (body ++ ELLIPSIS) ≤ 403 ∧
    body `prefix_of` s ∧
    (SPACE ∈ take 400 s →
     ∃ rest, take 400 s = body ++ SPACE :: rest ∧ SPACE ∉ rest) ∧
    (SPACE ∉ take 400 s → body = take 400 s) ∧
    (∀ d, d !! "section_text" = Some (VStr s) →
          ∃ label, citation_block float_repr d = Ok (label ++ body ++ ELLIPSIS)).
Proof.
  intros Hlen.
  assert (Hblock : ∀ body,
    truncate_snippet (VStr s) = Ok (VStr (body ++ ELLIPSIS)) →
    ∀ d, d !! "section_text" = Some (VStr s) →
         ∃ label, citation_block float_repr d = Ok (label ++ body ++ ELLIPSIS)).
  { intros body Hbody d Hd. unfold citation_block.
    replace (get_or d "section_text" (VStr [])) with (VStr s)
      by (unfold get_or; by rewrite Hd).
    rewrite Hbody. cbn [mbind result_bind py_str].
    eexists. f_equal. apply app_assoc6. }
  assert (Htake : length (take 400 s) = 400) by (rewrite length_take; lia).
  assert (Hpre : take 400 s `prefix_of` s) by apply prefix_take.
  assert (Htrunc : truncate_snippet (VStr s)
            = Ok (VStr (hd [] (rsplit1 SPACE (take 400 s)) ++ ELLIPSIS))).
  { unfold truncate_snippet, py_len, py_slice_to.
    cbn [mbind result_bind].
    rewrite (proj2 (Nat.ltb_lt 400 (length s)) Hlen).
    by rewrite slice_to_nonneg. }
  exists (hd [] (rsplit1 SPACE (take 400 s))).
  split; [exact Htrunc|].
  specialize (Hblock _ Htrunc). clear Htrunc. revert Hblock.
  destruct (rsplit1_spec SPACE (take 400 s))
    as [[Hnot ->]|(h & t & -> & Hsplit & Ht)]; cbn [hd]; intros Hblock.
  - rewrite length_app, Htake.
    split_and!; [lia|by compute|done|done|done|done].
  - assert (length h ≤ 400).
    { rewrite <-Htake, Hsplit, length_app. lia. }
    rewrite length_app. split_and!.
    + done.
    + change (length ELLIPSIS) with 3. lia.
    + etrans; [|exact Hpre]. rewrite Hsplit. by apply prefix_app_r.
    + intros _. by exists t.
    + intros Hnot. destruct Hnot. rewrite Hsplit. set_solver.
    + done.
Qed.
End SynthesisFacts.

Section SynthesisDefaults.
Variable float_repr : float → str.

Lemma py_str_get_or (d : doc) (key : string) (dflt : str) :
  py_str float_repr (get_or d key (VStr dflt)) =
  from_option (py_str float_repr) dflt (d !! key).
Proof. unfold get_or. by destruct (d !! key). Qed.

Lemma truncate_snippet_str (s : str) :
  ∃ out, truncate_snippet (VStr s) = Ok (VStr out).
Proof.
  unfold truncate_snippet, py_len, py_slice_to. cbn [mbind result_bind].
  destruct (400 <? length s); eauto.
Qed.

Lemma truncate_snippet_absent_or_str (d : doc) :
  text_absent_or_str d →
  ∃ out, truncate_snippet (get_or d "section_text" (VStr [])) = Ok (VStr out) ∧
         (d !! "section_text" = None → out = []).
Proof.
  unfold text_absent_or_str, get_or.
  destruct (d !! "section_text") as [[|s| |]|]; simpl; try done.
  - intros _. destruct (truncate_snippet_str s) as [out ->]. by exists out.
  - intros _. by exists [].
Qed.

Lemma citation_block_defaults (d : doc) :
  text_absent_or_str d →
  ∃ snippet,
    citation_block float_repr d =
      Ok (lit "• Fonte: "
          ++ from_option (py_str float_repr) (lit "Doença não identificada")
               (d !! "disease_name")
          ++ lit " ("
          ++ from_option (py_str float_repr) (lit "seção")
               (d !! "section_type")
          ++ lit ")" ++ [10; 32; 32]%N ++ snippet) ∧
    (d !! "section_text" = None → snippet = []).
Proof.
  intros Hd.
  destruct (truncate_snippet_absent_or_str d Hd) as (out & Hout & Hnone).
  exists out. split; [|done].
  unfold citation_block. rewrite Hout. cbn [mbind result_bind].
  rewrite !py_str_get_or. reflexivity.
Qed.

Lemma generate_rag_response_total (q : str) (docs : list doc) :
  Forall text_absent_or_str (take 3 docs) →
  ∃ out, generate_rag_response float_repr q docs = Ok out.
Proof.
  intros Hdocs. unfold generate_rag_response.
  destruct docs as [|d0 docs]; [by eexists|].
  destruct (mapM_from_total (λ _, citation_block float_repr) 0
              (take 3 (d0 :: docs))) as [blocks ->].
  - eapply Forall_impl; [exact Hdocs|].
    intros d Hd _. destruct (citation_block_defaults d Hd) as (? & -> & _).
    by eexists.
  - by eexists.
Qed.

Lemma generate_rag_response_blocks (q : str) (docs : list doc) :
  docs ≠ [] →
  Forall text_absent_or_str (take 3 docs) →
  ∃ blocks,
    generate_rag_response float_repr q docs =
      Ok (join [10; 10]%N
            ([lit "Resumo das principais informações encontradas sobre '"
              ++ q ++ lit "':"]
             ++ blocks
             ++ [lit "Recomendo avaliar as fontes citadas acima para detalhes adicionais."])) ∧
    Forall2 (λ d block, citation_block float_repr d = Ok block)
      (take 3 docs) blocks.
Proof.
  intros Hne Hdocs. unfold generate_rag_response.
  destruct docs as [|d0 docs]; [done|].
  destruct (mapM_from_total (λ _, citation_block float_repr) 0
              (take 3 (d0 :: docs))) as [blocks Hblocks].
  - eapply Forall_impl; [exact Hdocs|].
    intros d Hd _. destruct (citation_block_defaults d Hd) as (? & -> & _).
    by eexists.
  - rewrite Hblocks. exists blocks. split; [reflexivity|].
    eapply Forall2_impl; [by eapply mapM_from_Ok|]. by intros d block [_ ?].
Qed.

(** C7. The synthesizer returns the fixed message for the empty list.
    For a non-empty list of records whose text is absent or a string it
    does not raise: the answer is the header naming the query, one
    citation block for each of the first three records, and the closing
    recommendation, joined by blank lines.  The block of a record prints
    its disease name, its section type and its text, with the defaults
    "Doença não identificada", "seção" and the empty text in place of a
    missing field. *)
Theorem synthesizer_recovers_missing_fields (q : str) :
  generate_rag_response float_repr q [] = Ok NO_INFO_MESSAGE ∧
  (∀ docs, Forall text_absent_or_str (take 3 docs) →
     ∃ out, generate_rag_response float_repr q docs = Ok out) ∧
  (∀ docs, docs ≠ [] → Forall text_absent_or_str (take 3 docs) →
     ∃ blocks,
       generate_rag_response float_repr q docs =
         Ok (join [10; 10]%N
               ([lit "Resumo das principais informações encontradas sobre '"
                 ++ q ++ lit "':"]
                ++ blocks
                ++ [lit "Recomendo avaliar as fontes citadas acima para detalhes adicionais."])) ∧
       Forall2
         (λ d block, ∃ snippet,
            block =
              lit "• Fonte: "
              ++ from_option (py_str float_repr)
                   (lit "Doença não identificada") (d !! "disease_name")
              ++ lit " ("
              ++ from_option (py_str float_repr) (lit "seção")
                   (d !! "section_type")
              ++ lit ")" ++ [10; 32; 32]%N ++ snippet ∧
            truncate_snippet (get_or d "section_text" (VStr []))
              = Ok (VStr snippet) ∧
            (d !! "section_text" = None → snippet = []))
         (take 3 docs) blocks) ∧
  (∀ d, text_absent_or_str d →
     ∃ snippet,
       citation_block float_repr d =
         Ok (lit "• Fonte: "
             ++ from_option (py_str float_repr) (lit "Doença não identificada")
                  (d !! "disease_name")
             ++ lit " ("
             ++ from_option (py_str float_repr) (lit "seção")
                  (d !! "section_type")
             ++ lit ")" ++ [10; 32; 32]%N ++ snippet) ∧
       (d !! "section_text" = None → snippet = [])).
Proof.
  split_and!.
  - done.
  - apply generate_rag_response_total.
  - intros docs Hne Hdocs.
    destruct (generate_rag_response_blocks q docs Hne Hdocs)
      as (blocks & Hout & Hblocks).
    exists blocks. split; [exact Hout|].
    revert Hdocs Hblocks. generalize (take 3 docs). clear Hout.
    intros l Hl Hblocks. induction Hblocks as [|d block l blocks Hb _ IH];
      constructor.
    + apply Forall_cons in Hl as [Hd _].
      destruct (truncate_snippet_absent_or_str d Hd) as (out & Hsnip & Hnone).
      destruct (citation_block_defaults d Hd) as (snippet & Hblock & _).
      exists out. split_and!; [|done..].
      unfold citation_block in Hb. rewrite Hsnip in Hb.
      cbn [mbind result_bind] in Hb. rewrite !py_str_get_or in Hb.
      by injection Hb as <-.
    + apply IH. by apply Forall_cons in Hl as [_ ?].
  - apply citation_block_defaults.
Qed.
End SynthesisDefaults.

(** ** Embedding and insertion *)

(** C8. For a text that is empty or made of whitespace only, the embedding
    is the vector of [embedding_dim] zeros. *)
Theorem blank_text_embeds_to_zero_vector (self : VectorService) (s : str) :
  Forall (λ c, py_isspace c) s →
  _get_dense_embedding self (VStr s) = Ok (repeat 0%float (embedding_dim self)) ∧
  length (repeat 0%float (embedding_dim self)) = embedding_dim self.
Proof.
  intros Hs. split; [|apply repeat_length].
  unfold _get_dense_embedding, py_strip. cbn [mbind result_bind].
  by rewrite (strip_blank s Hs).
Qed.

Section InsertionFacts.
Variable float_repr : float → str.

Lemma prepare_document_Ok self i d v :
  _get_dense_embedding self (get_or d "section_text" (VStr [])) = Ok v →
  ∃ r, prepare_document float_repr self i d = Ok r ∧
       row_chunk_id r = row_id r ∧ row_id r ≠ [] ∧ row_dense_vector r = v ∧
       (lacks_chunk_id d →
        row_id r = lit "chunk_" ++ str_of_int (Z.of_nat i + 1)).
Proof.
  intros Hv. unfold prepare_document. rewrite Hv. cbn [mbind result_bind].
  eexists. split; [done|]. cbn [row_chunk_id row_id row_dense_vector].
  split_and!; [done| |done|].
  - by destruct (strip _).
  - unfold lacks_chunk_id, get_or.
    destruct (d !! "chunk_id") as [[|s| |]|]; simpl; try done.
    intros Hs. by rewrite (strip_blank s Hs).
Qed.

Lemma prepare_document_Raise self i d e :
  prepare_document float_repr self i d = Raise e ↔
  _get_dense_embedding self (get_or d "section_text" (VStr [])) = Raise e.
Proof.
  unfold prepare_document.
  destruct (_get_dense_embedding _ _); cbn [mbind result_bind];
    split; intros [= ->]; done.
Qed.

Lemma prepare_document_row self i d r :
  prepare_document float_repr self i d = Ok r →
  row_id r ≠ [] ∧ row_chunk_id r = row_id r.
Proof.
  unfold prepare_document.
  intros (v & _ & [= <-])%bind_Ok. cbn [row_chunk_id row_id].
  split; [|done]. by destruct (strip _).
Qed.

Lemma prepare_data_ids self i docs r :
  r ∈ prepare_data float_repr self i docs →
  row_id r ≠ [] ∧ row_chunk_id r = row_id r.
Proof.
  revert i. induction docs as [|d docs IH]; intros i; simpl.
  - by intros ?%elem_of_nil.
  - destruct (prepare_document _ _ _ _) as [r'|e] eqn:Hr; [|by apply IH].
    intros [->|?]%elem_of_cons; [|by eapply IH].
    by eapply prepare_document_row.
Qed.

Lemma prepare_data_lookup self i docs j d v :
  docs !! j = Some d →
  _get_dense_embedding self (get_or d "section_text" (VStr [])) = Ok v →
  ∃ r, prepare_document float_repr self (i + j) d = Ok r ∧
       r ∈ prepare_data float_repr self i docs.
Proof.
  revert i j. induction docs as [|d0 docs IH]; intros i j; [done|].
  destruct j as [|j]; simpl.
  - intros [= ->] Hv. rewrite Nat.add_0_r.
    destruct (prepare_document_Ok self i d v Hv) as (r & -> & _).
    exists r. split; [done|left].
  - intros Hd Hv. destruct (IH (S i) j Hd Hv) as (r & Hr & Hin).
    exists r. rewrite <-Nat.add_succ_comm. split; [done|].
    destruct (prepare_document _ _ i d0); [by right|done].
Qed.

(** The rows handed to the store are the argument of the one call of
    [client.insert], made when at least one row was prepared. *)
Lemma insert_documents_data self docs :
  insert_documents float_repr self docs =
  match prepare_data float_repr self 0 docs with
  | [] => false
  | data =>
    match client_insert self data with
    | Ok _ => true
    | Raise _ => false
    end
  end.
Proof. by destruct docs. Qed.

(** C10. A record is rejected only when its embedding fails, never for
    its chunk id.  The record at position [i] of the batch whose chunk id
    is missing, empty or whitespace-only, and whose text can be embedded,
    is among the rows [insert_documents] hands to the store, under the id
    "chunk_" followed by [i + 1] in decimal; the store is handed exactly
    the prepared rows, in one call of [client.insert], and
    [insert_documents] returns [True] exactly when this call returns.
    Every row handed to the store has a non-empty id, equal to its
    chunk id. *)
Theorem missing_chunk_id_gets_positional_id (self : VectorService)
    (documents : list doc) :
  (∀ i d e,
      documents !! i = Some d →
      prepare_document float_repr self i d = Raise e →
      _get_dense_embedding self (get_or d "section_text" (VStr [])) = Raise e) ∧
  (∀ i d v,
      documents !! i = Some d →
      lacks_chunk_id d →
      _get_dense_embedding self (get_or d "section_text" (VStr [])) = Ok v →
      ∃ r, r ∈ prepare_data float_repr self 0 documents ∧
           prepare_document float_repr self i d = Ok r ∧
           row_id r = lit "chunk_" ++ str_of_int (Z.of_nat i + 1) ∧
           insert_documents float_repr self documents =
             match client_insert self
                     (prepare_data float_repr self 0 documents) with
             | Ok _ => true
             | Raise _ => false
             end) ∧
  (∀ r, r ∈ prepare_data float_repr self 0 documents →
        row_id r ≠ [] ∧ row_chunk_id r = row_id r) ∧
  (insert_documents float_repr self documents = true ↔
   prepare_data float_repr self 0 documents ≠ [] ∧
   ∃ u, client_insert self (prepare_data float_repr self 0 documents) = Ok u).
Proof.
  split_and!.
  - intros i d e _. apply prepare_document_Raise.
  - intros i d v Hd Hlack Hv.
    destruct (prepare_data_lookup self 0 documents i d v Hd Hv)
      as (r & Hr & Hin).
    exists r. split_and!; [done|done| |].
    + destruct (prepare_document_Ok self i d v Hv)
        as (r' & Hr' & _ & _ & _ & Hid).
      simpl in Hr. rewrite Hr in Hr'. injection Hr' as <-. by apply Hid.
    + rewrite insert_documents_data.
      destruct (prepare_data float_repr self 0 documents) as [|r0 data];
        [by apply elem_of_nil in Hin|done].
  - intros r Hr. by eapply prepare_data_ids.
  - rewrite insert_documents_data.
    destruct (prepare_data float_repr self 0 documents) as [|r0 data].
    + split; [done|by intros [? _]].
    + destruct (client_insert self (r0 :: data)) as [u|e]; split.
      * intros _. split; [done|by exists u].
      * done.
      * done.
      * by intros [_ [u [=]]].
Qed.
End InsertionFacts.

(** ** Model scoring *)
Section ModelScoringFacts.
Variable is_decimal : char → bool.
Variable float_of_str : str → float.
Variable chat_completion : nat → list doc → result doc.

Lemma take_drop_digits (s : str) : take_digits is_decimal s ++ drop_digits is_decimal s = s.
Proof.
  induction s as [|c s IH]; simpl; [done|].
  destruct (is_decimal c); simpl; by f_equal.
Qed.

Lemma drop_digits_head (s : str) c rest :
  drop_digits is_decimal s = c :: rest → is_decimal c = false.
Proof.
  induction s as [|c' s IH]; simpl; [done|].
  destruct (is_decimal c') eqn:Hc'; [done|]. by intros [= <- <-].
Qed.

Lemma re_search_number_at_digit (c : char) (s : str) :
  is_decimal c = true →
  ∃ number post,
    re_search_number is_decimal (c :: s) = Some number ∧
    c :: s = number ++ post ∧
    (∃ number', number = c :: number') ∧
    (∀ c' post', post = c' :: post' → is_decimal c' = false).
Proof.
  intros Hc. pose proof (take_drop_digits (c :: s)) as Hsplit.
  cbn [re_search_number]. rewrite Hc.
  assert (Hhd : ∃ ds, take_digits is_decimal (c :: s) = c :: ds).
  { simpl. rewrite Hc. by eexists. }
  destruct (drop_digits is_decimal (c :: s)) as [|c' rest] eqn:Hdrop.
  - exists (take_digits is_decimal (c :: s)), [].
    split_and!; [done|done|done|by intros ? ? [=]].
  - destruct (N.eqb_spec c' POINT) as [->|Hne].
    + exists (take_digits is_decimal (c :: s) ++ [POINT]
              ++ take_digits is_decimal rest),
             (drop_digits is_decimal rest).
      split_and!; [done| | |].
      * etrans; [symmetry; exact Hsplit|].
        rewrite <-!app_assoc. by rewrite take_drop_digits.
      * destruct Hhd as [ds ->]. by eexists.
      * intros c' post'. apply drop_digits_head.
    + exists (take_digits is_decimal (c :: s)), (c' :: rest).
      split_and!; [done|done|done|].
      intros ? ? [= <- <-]. by eapply drop_digits_head.
Qed.

Lemma re_search_number_None (s : str) :
  re_search_number is_decimal s = None ↔ Forall (λ c, is_decimal c = false) s.
Proof.
  induction s as [|c s IH]; [by split|].
  rewrite Forall_cons. destruct (is_decimal c) eqn:Hc.
  - destruct (re_search_number_at_digit c s Hc) as (? & ? & -> & _).
    split; [done|by intros [? _]].
  - simpl. rewrite Hc, IH. by split; [|intros [_ ?]].
Qed.

(** The match is the first numeric token: nothing before it is a digit,
    it starts with a digit and no digit follows it. *)
Lemma re_search_number_Some (s number : str) :
  re_search_number is_decimal s = Some number →
  ∃ pre post,
    s = pre ++ number ++ post ∧
    Forall (λ c, is_decimal c = false) pre ∧
    (∃ c number', number = c :: number' ∧ is_decimal c = true) ∧
    (∀ c' post', post = c' :: post' → is_decimal c' = false).
Proof.
  induction s as [|c s IH]; [done|].
  destruct (is_decimal c) eqn:Hc.
  - destruct (re_search_number_at_digit c s Hc)
      as (number' & post & -> & Hs & [tl ->] & Hpost).
    intros [= <-]. exists [], post. split_and!; [done|done| |done].
    by exists c, tl.
  - simpl. rewrite Hc. intros (pre & post & -> & ? & ? & ?)%IH.
    exists (c :: pre), post. split_and!; [done| |done|done].
    by constructor.
Qed.

Lemma score_document_str q i d s :
  get_or d "section_text" (VStr []) = VStr s →
  score_document is_decimal float_of_str chat_completion q i d =
    Ok (match request_score is_decimal float_of_str chat_completion q i
                (take 1000 s) with
        | Ok score => score
        | Raise _ => DEFAULT_SCORE
        end, d).
Proof.
  intros Hs. unfold score_document, py_slice_to. rewrite Hs.
  cbn [mbind result_bind]. rewrite slice_to_nonneg by done.
  by destruct (request_score _ _ _ _ _ _).
Qed.

Lemma text_absent_or_str_get (d : doc) :
  text_absent_or_str d → ∃ s, get_or d "section_text" (VStr []) = VStr s.
Proof.
  unfold text_absent_or_str, get_or.
  destruct (d !! "section_text") as [[|s| |]|]; simpl; try done; by eexists.
Qed.

(** C5. For a document whose text is a string or absent: when the
    scoring call raises (or the request fails in any other way), or when
    its reply holds no digit, the document is scored 0.5; when the reply
    holds a digit, the score is the first numeric token of the stripped
    reply, converted and clamped, and lies between 0.0 and 1.0.  Scoring
    such a batch never raises, whatever the calls do: the scored list
    holds, at each position of the batch, the document of that position
    with the score of its own scoring task, and the reranked output is a
    permutation of the batch. *)
Theorem failed_scoring_gets_neutral_score (q : str) :
  DEFAULT_SCORE = 0.5%float ∧
  (∀ i d s e,
      get_or d "section_text" (VStr []) = VStr s →
      chat_completion i (scoring_messages q (take 1000 s)) = Raise e ∨
      request_score is_decimal float_of_str chat_completion q i (take 1000 s)
        = Raise e →
      score_document is_decimal float_of_str chat_completion q i d
        = Ok (DEFAULT_SCORE, d)) ∧
  (∀ i d s response reply,
      get_or d "section_text" (VStr []) = VStr s →
      chat_completion i (scoring_messages q (take 1000 s)) = Ok response →
      response !! "content" = Some (VStr reply) →
      match re_search_number is_decimal (strip reply) with
      | None =>
        score_document is_decimal float_of_str chat_completion q i d
          = Ok (DEFAULT_SCORE, d)
      | Some number =>
        score_document is_decimal float_of_str chat_completion q i d
          = Ok (clamp_score (float_of_str number), d) ∧
        (0 <=? clamp_score (float_of_str number))%float = true ∧
        (clamp_score (float_of_str number) <=? 1)%float = true ∧
        ∃ pre post,
          strip reply = pre ++ number ++ post ∧
          Forall (λ c, is_decimal c = false) pre ∧
          (∃ c number', number = c :: number' ∧ is_decimal c = true)
      end) ∧
  (∀ docs,
      Forall text_absent_or_str docs →
      ∃ scored,
        score_all is_decimal float_of_str chat_completion q docs = Ok scored ∧
        length scored = length docs ∧
        (∀ i d, docs !! i = Some d →
           ∃ score,
             scored !! i = Some (score, d) ∧
             score_document is_decimal float_of_str chat_completion q i d
               = Ok (score, d)) ∧
        scored.*2 = docs ∧
        _rerank_documents_with_model is_decimal float_of_str chat_completion
          q docs = (sort_desc fst scored).*2) ∧
  (∀ docs,
      _rerank_documents_with_model is_decimal float_of_str chat_completion
        q docs ≡ₚ docs).
Proof.
  split_and!.
  - done.
  - intros i d s e Hs Hfail. rewrite (score_document_str q i d s Hs).
    destruct Hfail as [Hchat|Hreq].
    + unfold request_score. by rewrite Hchat.
    + by rewrite Hreq.
  - intros i d s response reply Hs Hchat Hreply.
    rewrite (score_document_str q i d s Hs).
    unfold request_score, subscript, py_strip. rewrite Hchat.
    cbn [mbind result_bind]. rewrite Hreply. cbn [mbind result_bind].
    destruct (re_search_number is_decimal (strip reply))
      as [number|] eqn:Hre; [|done].
    destruct (clamp_score_range (float_of_str number)) as [Hlo Hhi].
    split_and!; [done..|].
    destruct (re_search_number_Some _ _ Hre) as (pre & post & ? & ? & ? & _).
    by exists pre, post.
  - intros docs Hdocs.
    destruct (mapM_from_total
                (score_document is_decimal float_of_str chat_completion q)
                0 docs) as [scored Hs].
    { eapply Forall_impl; [exact Hdocs|]. intros d Hd j.
      destruct (text_absent_or_str_get d Hd) as [s Hs].
      rewrite (score_document_str q j d s Hs). by eexists. }
    exists scored. destruct (mapM_from_lookup _ _ _ _ Hs) as [Hlen Hget].
    split_and!; [done|done| |by eapply score_all_docs|].
    + intros i d Hd. destruct (Hget i d Hd) as ([score d'] & Hp & Hi).
      simpl in Hi. destruct (text_absent_or_str_get d) as [s Hstr].
      { by eapply (proj1 (Forall_forall _ _) Hdocs), list_elem_of_lookup_2. }
      rewrite (score_document_str q i d s Hstr) in Hi. injection Hi as <- <-.
      exists (match request_score is_decimal float_of_str chat_completion
                      q i (take 1000 s) with
              | Ok score => score
              | Raise _ => DEFAULT_SCORE
              end).
      split; [done|]. by rewrite (score_document_str q i d s Hstr).
    + unfold _rerank_documents_with_model, score_all. by rewrite Hs.
  - apply rerank_model_perm.
Qed.
End ModelScoringFacts.

(** ** The orchestrator *)

Lemma M_bind_Ok {A B} (c : M A) (f : A → M B) (m m' : machine) (b : B) :
  (c ≫= f) m = (Ok b, m') ↔ ∃ a m1, c m = (Ok a, m1) ∧ f a m1 = (Ok b, m').
Proof.
  unfold mbind, M_bind. destruct (c m) as [[a|e] m1]; split.
  - intros H. by exists a, m1.
  - by intros (? & ? & [= <- <-] & ?).
  - done.
  - by intros (? & ? & [=] & _).
Qed.

Lemma slice_to_length {A} (k : Z) (l : list A) :
  (0 ≤ k)%Z → (Z.of_nat (length (slice_to k l)) ≤ k)%Z.
Proof.
  intros Hk. rewrite slice_to_nonneg by done. rewrite length_take. lia.
Qed.

Lemma source_of_preview (d : doc) (s : Source) :
  source_of d = Ok s → length (content_preview s) ≤ 200.
Proof.
  unfold source_of. intros (preview & Hp & [= <-])%bind_Ok. simpl.
  unfold py_slice_to in Hp. destruct (get_or _ _ _); try done.
  injection Hp as <-. rewrite slice_to_nonneg by done.
  rewrite length_take. lia.
Qed.

Lemma sources_of_selected (selected : list doc) (srcs : list Source) :
  mapM_from (λ _, source_of) 0 selected = Ok srcs →
  length srcs = length selected ∧
  Forall (λ s, length (content_preview s) ≤ 200) srcs.
Proof.
  intros H%mapM_from_Ok. split; [symmetry; by eapply Forall2_length|].
  induction H as [|d s ds ss [_ Hs] _ IH]; constructor; [|done].
  by eapply source_of_preview.
Qed.

Section AskFacts.
Variable encode : pyval → result (list float).
Variable cos_sim : list float → list float → float.
Variable float_repr : float → str.
Variable VectorService_new : result VectorService.
Variable initialize : VectorService → result unit.

Lemma startup_guard (m : machine) :
  (if vector_service (service m) is None
   then startup VectorService_new initialize else mret tt) m =
  startup VectorService_new initialize m.
Proof.
  unfold startup, get_self, mbind, M_bind.
  by destruct (vector_service (service m)) eqn:Hvs; rewrite ?Hvs.
Qed.

Lemma startup_Ok (m m1 : machine) :
  startup VectorService_new initialize m = (Ok tt, m1) →
  (∃ vs, vector_service (service m) = Some vs ∧ m1 = m) ∨
  (∃ vs, vector_service (service m) = None ∧
         VectorService_new = Ok vs ∧ initialize vs = Ok tt ∧
         m1 = {| service := {| vector_service := Some vs;
                               top_k_default := top_k_default (service m) |};
                 calls := calls m ++ [CallStartup] |}).
Proof.
  unfold startup, get_self, mbind, M_bind, enter, lift, set_vector_service.
  destruct (vector_service (service m)) as [vs|] eqn:Hvs.
  - intros [= <-]. left. by exists vs.
  - destruct VectorService_new as [vs|]; [|done]. simpl.
    destruct (initialize vs) as [[]|] eqn:Hinit; [|done].
    intros [= <-]. right. by exists vs.
Qed.

Lemma startup_ready (m : machine) (vs : VectorService) :
  vector_service (service m) = Some vs →
  startup VectorService_new initialize m = (Ok tt, m).
Proof.
  intros Hvs. unfold startup, get_self, mbind, M_bind. by rewrite Hvs.
Qed.

Lemma startup_fresh (m : machine) (vs : VectorService) :
  vector_service (service m) = None →
  VectorService_new = Ok vs → initialize vs = Ok tt →
  startup VectorService_new initialize m =
    (Ok tt, {| service := {| vector_service := Some vs;
                             top_k_default := top_k_default (service m) |};
               calls := calls m ++ [CallStartup] |}).
Proof.
  intros Hvs Hnew Hinit.
  unfold startup, get_self, mbind, M_bind, enter, lift, set_vector_service.
  rewrite Hvs, Hnew. simpl. by rewrite Hinit.
Qed.

Lemma search_run (q : str) (k : Z) (m : machine) :
  search q k m =
    (match vector_service (service m) with
     | Some vs => hybrid_search vs q k
     | None => Raise AttributeError
     end,
     {| service := service m; calls := calls m ++ [CallHybridSearch q k] |}).
Proof.
  unfold search, get_self, mbind, M_bind, enter, lift.
  by destruct (vector_service (service m)).
Qed.

(** [ask] up to the test of the search result. *)
Lemma ask_after_search (q : str) (k : option Z) (m m1 m2 : machine)
    (documents : list doc) :
  startup VectorService_new initialize m = (Ok tt, m1) →
  search q (top_k_or k (top_k_default (service m)) * 2) m1
    = (Ok documents, m2) →
  ask encode cos_sim float_repr VectorService_new initialize q k m =
  match documents with
  | [] => (Ok {| answer := FALLBACK_MESSAGE; sources := [] |}, m2)
  | _ =>
    let top_k := top_k_or k (top_k_default (service m)) in
    let m3 := {| service := service m2;
                 calls := calls m2 ++ [CallRerank q documents] |} in
    match rerank_documents_with_similarity encode cos_sim q documents with
    | Raise e => (Raise e, m3)
    | Ok ranked =>
      let selected := slice_to top_k ranked in
      let m4 := {| service := service m2;
                   calls := calls m3 ++ [CallGenerate q selected] |} in
      match generate_rag_response float_repr q selected with
      | Raise e => (Raise e, m4)
      | Ok answer =>
        match mapM_from (λ _, source_of) 0 selected with
        | Raise e => (Raise e, m4)
        | Ok sources => (Ok {| answer := answer; sources := sources |}, m4)
        end
      end
    end
  end.
Proof.
  intros Hstart Hsearch. unfold ask.
  unfold mbind at 1, M_bind at 1, get_self at 1. cbv beta iota.
  unfold mbind at 1, M_bind at 1. rewrite startup_guard, Hstart.
  unfold mbind at 1, M_bind at 1. rewrite Hsearch.
  destruct documents as [|d documents]; [done|].
  unfold mbind, M_bind, enter, lift. cbv beta iota zeta.
  destruct (rerank_documents_with_similarity _ _ _ _) as [ranked|]; [|done].
  cbv beta iota zeta.
  destruct (generate_rag_response _ _ _) as [answer|]; [|done].
  cbv beta iota zeta.
  by destruct (mapM_from _ _ _) as [srcs|].
Qed.

(** What a returning call of [ask] has done. *)
Lemma ask_Ok (q : str) (k : option Z) (m m' : machine) (out : AnswerResult) :
  ask encode cos_sim float_repr VectorService_new initialize q k m
    = (Ok out, m') →
  ∃ m1 m2 documents,
    startup VectorService_new initialize m = (Ok tt, m1) ∧
    search q (top_k_or k (top_k_default (service m)) * 2) m1
      = (Ok documents, m2).
Proof.
  unfold ask.
  intros (self & m0 & [= <- <-] & H)%M_bind_Ok.
  apply M_bind_Ok in H as ([] & m1 & Hstart & H).
  rewrite startup_guard in Hstart.
  apply M_bind_Ok in H as (documents & m2 & Hsearch & H).
  by exists m1, m2, documents.
Qed.

Lemma ask_sources_bound (q : str) (k : option Z) (m m' : machine)
    (out : AnswerResult) :
  (0 ≤ top_k_or k (top_k_default (service m)))%Z →
  ask encode cos_sim float_repr VectorService_new initialize q k m
    = (Ok out, m') →
  (Z.of_nat (length (sources out))
     ≤ top_k_or k (top_k_default (service m)))%Z ∧
  Forall (λ s, length (content_preview s) ≤ 200) (sources out).
Proof.
  intros Hk Hask.
  destruct (ask_Ok q k m m' out Hask) as (m1 & m2 & documents & H1 & H2).
  rewrite (ask_after_search q k m m1 m2 documents H1 H2) in Hask.
  destruct documents as [|d documents].
  { injection Hask as <- <-. simpl. split; [lia|constructor]. }
  cbv zeta in Hask.
  destruct (rerank_documents_with_similarity _ _ _ _) as [ranked|]; [|done].
  destruct (generate_rag_response _ _ _) as [answer|]; [|done].
  destruct (mapM_from _ _ _) as [srcs|] eqn:Hsrcs; [|done].
  injection Hask as <- <-. simpl.
  apply sources_of_selected in Hsrcs as [-> ?]. split; [|done].
  by apply slice_to_length.
Qed.

(** C3. For [top_k ≥ 1], the answer [ask] returns has at most [top_k]
    sources, and the content preview of each is at most 200 characters
    long. *)
Theorem ask_sources_bounded (q : str) (top_k : Z) (m m' : machine)
    (out : AnswerResult) :
  (1 ≤ top_k)%Z →
  ask encode cos_sim float_repr VectorService_new initialize q (Some top_k) m
    = (Ok out, m') →
  (Z.of_nat (length (sources out)) ≤ top_k)%Z ∧
  Forall (λ s, length (content_preview s) ≤ 200) (sources out).
Proof.
  intros Hk Hask.
  assert (Htop : top_k_or (Some top_k) (top_k_default (service m)) = top_k).
  { unfold top_k_or. destruct (Z.eqb_spec top_k 0); [lia|done]. }
  rewrite <-Htop at 1. apply (ask_sources_bound q (Some top_k) m m' out); [|done].
  rewrite Htop. lia.
Qed.

(** C4. When the service is ready, or starts up without error, and the
    vector search returns no document, [ask] returns the fixed fallback
    message with no source, and the only calls it makes are the startup
    (when the service was not ready) and the search: neither the
    reranker nor the synthesizer is entered. *)
Theorem empty_search_returns_fallback (q : str) (top_k : option Z)
    (m : machine) (vs : VectorService) :
  vector_service (service m) = Some vs ∨
  (vector_service (service m) = None ∧
   VectorService_new = Ok vs ∧ initialize vs = Ok tt) →
  hybrid_search vs q (top_k_or top_k (top_k_default (service m)) * 2) = Ok [] →
  ∃ m',
    ask encode cos_sim float_repr VectorService_new initialize q top_k m
      = (Ok {| answer := FALLBACK_MESSAGE; sources := [] |}, m') ∧
    vector_service (service m') = Some vs ∧
    ∃ started,
      (started = [] ∨ started = [CallStartup]) ∧
      calls m' = calls m ++ started ++
        [CallHybridSearch q (top_k_or top_k (top_k_default (service m)) * 2)].
Proof.
  intros Hready Hempty.
  destruct Hready as [Hvs|(Hvs & Hnew & Hinit)].
  - pose proof (startup_ready m vs Hvs) as Hstart.
    eexists. split.
    + erewrite (ask_after_search q top_k m m); [|done|].
      2: { rewrite search_run, Hvs, Hempty. done. }
      done.
    + split; [done|]. exists []. split; [by left|done].
  - pose proof (startup_fresh m vs Hvs Hnew Hinit) as Hstart.
    eexists. split.
    + erewrite (ask_after_search q top_k m); [|done|].
      2: { rewrite search_run. cbn [service vector_service calls].
           rewrite Hempty. done. }
      done.
    + split; [done|]. exists [CallStartup]. split; [by right|].
      cbn [calls]. by rewrite <-!app_assoc.
Qed.
Lemma source_of_total (d : doc) :
  text_absent_or_str d → ∃ src, source_of d = Ok src.
Proof.
  intros [s Hs]%text_absent_or_str_get. unfold source_of. rewrite Hs.
  by eexists.
Qed.

(** [ask] returns whenever the service is ready or starts up, the search
    succeeds with records whose text is absent or a string, and the
    encoder accepts every string. *)
Lemma ask_returns (q : str) (top_k : option Z) (m : machine)
    (vs : VectorService) (documents : list doc) :
  vector_service (service m) = Some vs ∨
  (vector_service (service m) = None ∧
   VectorService_new = Ok vs ∧ initialize vs = Ok tt) →
  hybrid_search vs q (top_k_or top_k (top_k_default (service m)) * 2)
    = Ok documents →
  Forall text_absent_or_str documents →
  (∀ s, ∃ v, encode (VStr s) = Ok v) →
  ∃ out m',
    ask encode cos_sim float_repr VectorService_new initialize q top_k m
      = (Ok out, m').
Proof.
  intros Hready Hsearch Hdocs Henc.
  assert (∃ m1, startup VectorService_new initialize m = (Ok tt, m1) ∧
                vector_service (service m1) = Some vs) as (m1 & Hstart & Hvs).
  { destruct Hready as [Hvs|(Hvs & Hnew & Hinit)].
    - exists m. split; [by eapply startup_ready|done].
    - eexists. split; [by eapply startup_fresh|done]. }
  erewrite (ask_after_search q top_k m m1); [|done|].
  2: { rewrite search_run, Hvs, Hsearch. done. }
  destruct documents as [|d0 documents]; [by eexists _, _|].
  cbv zeta.
  pose proof (rerank_similarity_cases encode cos_sim q (d0 :: documents))
    as Hrank.
  destruct (rerank_documents_with_similarity _ _ _ _) as [ranked|e].
  - assert (Hsel : Forall text_absent_or_str
              (slice_to (top_k_or top_k (top_k_default (service m))) ranked)).
    { assert (Forall text_absent_or_str ranked).
      { rewrite Hrank. apply Forall_forall.
        intros d [_ Hd]%list_elem_of_filter.
        by apply (proj1 (Forall_forall _ _) Hdocs). }
      unfold slice_to. by destruct (_ <=? _)%Z; apply Forall_take. }
    destruct (generate_rag_response_total float_repr q
                (slice_to (top_k_or top_k (top_k_default (service m))) ranked))
      as [answer ->]; [by apply Forall_take|].
    destruct (mapM_from_total (λ _, source_of) 0
                (slice_to (top_k_or top_k (top_k_default (service m))) ranked))
      as [srcs ->]; [|by eexists _, _].
    eapply Forall_impl; [exact Hsel|]. intros d Hd _.
    by apply source_of_total.
  - exfalso. destruct Hrank as [_ [Hq|(d & Hd & _ & Hraise)]].
    + destruct (Henc q) as [v Hv]. congruence.
    + rewrite Forall_forall in Hdocs.
      destruct (text_absent_or_str_get d (Hdocs d Hd)) as [s Hs].
      rewrite Hs in Hraise. destruct (Henc s) as [v Hv]. congruence.
Qed.
End AskFacts.

Lemma ask_top_k_or encode cos_sim float_repr VectorService_new initialize
    (q : str) (k1 k2 : option Z) (m : machine) :
  top_k_or k1 (top_k_default (service m))
    = top_k_or k2 (top_k_default (service m)) →
  ask encode cos_sim float_repr VectorService_new initialize q k1 m =
  ask encode cos_sim float_repr VectorService_new initialize q k2 m.
Proof.
  intros Hk. unfold ask, get_self, mbind, M_bind.
  cbv beta iota zeta. rewrite Hk. reflexivity.
Qed.

(** C9. [ask] with [top_k = 0], like [ask] without [top_k], runs with the
    default of the service, which is 5 unless configured otherwise; on a
    corpus of 12 records such a call searches for 10 candidates and returns
    5 sources. *)
Theorem zero_top_k_means_default :
  top_k_default RAGService_default = 5%Z ∧
  (∀ dflt, top_k_or (Some 0%Z) dflt = dflt ∧ top_k_or None dflt = dflt) ∧
  (∀ encode cos_sim float_repr VectorService_new initialize q m,
      ask encode cos_sim float_repr VectorService_new initialize q (Some 0%Z) m
      = ask encode cos_sim float_repr VectorService_new initialize q None m ∧
      ask encode cos_sim float_repr VectorService_new initialize q (Some 0%Z) m
      = ask encode cos_sim float_repr VectorService_new initialize q
          (Some (top_k_default (service m))) m) ∧
  match Sample.ask_on Sample.corpus "mastite" (Some 0%Z) with
  | (Ok out, m') =>
    length (sources out) = 5 ∧
    calls m' !! 1 = Some (CallHybridSearch (lit "mastite") 10)
  | (Raise _, _) => False
  end.
Proof.
  split_and!.
  - done.
  - done.
  - intros. split; apply ask_top_k_or; [done|].
    unfold top_k_or. cbn [Z.eqb].
    by destruct (top_k_default (service m) =? 0)%Z.
  - vm_compute. by split.
Qed.

(** * The properties on the sample deployment *)

Example utf8_decode_accents : lit "Não •" = [78; 227; 111; 32; 8226]%N.
Proof. reflexivity. Qed.

Example rsplit1_last : rsplit1 SPACE (lit "a b c") = [lit "a b"; lit "c"].
Proof. reflexivity. Qed.

Example rsplit1_none : rsplit1 SPACE (lit "abc") = [lit "abc"].
Proof. reflexivity. Qed.

Example strip_both : strip (lit "  0.8 ") = lit "0.8".
Proof. reflexivity. Qed.

Example str_of_int_neg : str_of_int (-12) = lit "-12".
Proof. reflexivity. Qed.

Example re_search_number_first :
  re_search_number Sample.is_decimal (lit "about 0.75 or 1.0")
  = Some (lit "0.75").
Proof. reflexivity. Qed.

Example re_search_number_trailing_point :
  re_search_number Sample.is_decimal (lit "1.") = Some (lit "1.").
Proof. reflexivity. Qed.

Example clamp_score_above : clamp_score 7%float = 1%float.
Proof. reflexivity. Qed.

Example sort_desc_ties :
  sort_desc fst [(0.5%float, 1); (0.75%float, 2); (0.5%float, 3); (0.75%float, 4)]
  = [(0.75%float, 2); (0.75%float, 4); (0.5%float, 1); (0.5%float, 3)].
Proof. reflexivity. Qed.

(** The similarity strategy drops a record whose text is empty: its output
    is not a permutation of its input. *)
Lemma similarity_rerank_drops_untexted :
  rerank_documents_with_similarity Sample.encode Sample.cos_sim
    (lit "mastite") [Sample.mastite; Sample.untexted] = Ok [Sample.mastite] ∧
  ¬ [Sample.mastite] ≡ₚ [Sample.mastite; Sample.untexted].
Proof.
  split; [reflexivity|]. by intros H%Permutation_length.
Qed.

(** A text of 401 letters without a space is cut after 400 of them, inside
    the word, and the snippet is 403 characters long. *)
Lemma long_word_snippet_exceeds_limit :
  400 < length Sample.long_word ∧
  truncate_snippet (VStr Sample.long_word)
    = Ok (VStr (replicate 400 97%N ++ lit "...")) ∧
  length (replicate 400 97%N ++ lit "...") = 403 ∧
  ¬ length (replicate 400 97%N ++ lit "...") ≤ 400.
Proof.
  split_and!.
  - apply Nat.ltb_lt. by vm_compute.
  - by vm_compute.
  - by vm_compute.
  - rewrite length_app, length_replicate. simpl. lia.
Qed.

Lemma snippet_of_long_text :
  400 < length Sample.long_text ∧
  ∃ body,
    truncate_snippet (VStr Sample.long_text) = Ok (VStr (body ++ ELLIPSIS)) ∧
    length body ≤ 400 ∧
    length (body ++ ELLIPSIS) ≤ 403 ∧
    body `prefix_of` Sample.long_text ∧
    (SPACE ∈ take 400 Sample.long_text →
     ∃ rest, take 400 Sample.long_text = body ++ SPACE :: rest ∧ SPACE ∉ rest) ∧
    (SPACE ∉ take 400 Sample.long_text → body = take 400 Sample.long_text) ∧
    (∀ d, d !! "section_text" = Some (VStr Sample.long_text) →
          ∃ label,
            citation_block Sample.float_repr d = Ok (label ++ body ++ ELLIPSIS)).
Proof.
  assert (H : 400 < length Sample.long_text).
  { apply Nat.ltb_lt. vm_compute. reflexivity. }
  split; [exact H|].
  exact (snippet_cut_at_last_space Sample.float_repr Sample.long_text H).
Defined.

Lemma ask_top_2_on_corpus :
  match Sample.ask_on Sample.corpus "mastite" (Some 2%Z) with
  | (Ok out, _) =>
    (1 ≤ 2)%Z ∧
    (Z.of_nat (length (sources out)) ≤ 2)%Z ∧
    Forall (λ s, length (content_preview s) ≤ 200) (sources out)
  | (Raise _, _) => False
  end.
Proof.
  destruct (Sample.ask_on Sample.corpus "mastite" (Some 2%Z))
    as [[out|e] m'] eqn:Hrun.
  - split; [lia|]. unfold Sample.ask_on in Hrun.
    eapply ask_sources_bounded; [|exact Hrun]; lia.
  - apply (f_equal returned) in Hrun. vm_compute in Hrun. discriminate.
Defined.

Lemma ask_on_empty_corpus :
  ∃ m',
    ask Sample.encode Sample.cos_sim Sample.float_repr
      (Ok (Sample.vector_service_on [])) Sample.initialize
      (lit "mastitis") None Sample.fresh
      = (Ok {| answer := FALLBACK_MESSAGE; sources := [] |}, m') ∧
    vector_service (service m') = Some (Sample.vector_service_on []) ∧
    ∃ started,
      (started = [] ∨ started = [CallStartup]) ∧
      calls m' = calls Sample.fresh ++ started ++
        [CallHybridSearch (lit "mastitis")
           (top_k_or None (top_k_default (service Sample.fresh)) * 2)].
Proof.
  apply empty_search_returns_fallback.
  - right. split_and!; reflexivity.
  - reflexivity.
Defined.

Lemma scoring_on_sample_batch :
  score_document Sample.is_decimal Sample.float_of_str Sample.chat_completion
    (lit "mastite") 0 Sample.mastite = Ok (DEFAULT_SCORE, Sample.mastite) ∧
  score_document Sample.is_decimal Sample.float_of_str Sample.chat_completion
    (lit "mastite") 1 Sample.bvd = Ok (DEFAULT_SCORE, Sample.bvd) ∧
  score_document Sample.is_decimal Sample.float_of_str Sample.chat_completion
    (lit "mastite") 2 Sample.brucelose = Ok (0.75%float, Sample.brucelose) ∧
  score_document Sample.is_decimal Sample.float_of_str Sample.chat_completion
    (lit "mastite") 3 Sample.mastite = Ok (1%float, Sample.mastite) ∧
  ∃ scored,
    score_all Sample.is_decimal Sample.float_of_str Sample.chat_completion
      (lit "mastite") [Sample.mastite; Sample.bvd; Sample.brucelose]
      = Ok scored ∧
    length scored = length [Sample.mastite; Sample.bvd; Sample.brucelose] ∧
    (∀ i d, [Sample.mastite; Sample.bvd; Sample.brucelose] !! i = Some d →
       ∃ score,
         scored !! i = Some (score, d) ∧
         score_document Sample.is_decimal Sample.float_of_str
           Sample.chat_completion (lit "mastite") i d = Ok (score, d)) ∧
    scored.*2 = [Sample.mastite; Sample.bvd; Sample.brucelose] ∧
    _rerank_documents_with_model Sample.is_decimal Sample.float_of_str
      Sample.chat_completion (lit "mastite")
      [Sample.mastite; Sample.bvd; Sample.brucelose]
      = (sort_desc fst scored).*2.
Proof.
  destruct (failed_scoring_gets_neutral_score Sample.is_decimal
              Sample.float_of_str Sample.chat_completion (lit "mastite"))
    as (_ & Hfail & Hreply & Hbatch & _).
  split_and!.
  - exact (Hfail 0 Sample.mastite (lit "Inflamação do úbere.") (External 503)
             eq_refl (or_introl eq_refl)).
  - exact (Hreply 1 Sample.bvd (lit "Diarreia viral bovina.")
             {[ "content" := VStr (lit "not sure") ]} (lit "not sure")
             eq_refl eq_refl eq_refl).
  - exact (proj1 (Hreply 2 Sample.brucelose
             (lit "Aborto no terço final da gestação.")
             {[ "content" := VStr (lit " score: 0.75 ") ]} (lit " score: 0.75 ")
             eq_refl eq_refl eq_refl)).
  - exact (proj1 (Hreply 3 Sample.mastite (lit "Inflamação do úbere.")
             {[ "content" := VStr (lit "7") ]} (lit "7")
             eq_refl eq_refl eq_refl)).
  - apply Hbatch. repeat constructor.
Defined.

Lemma ties_on_sample_batch :
  (0.75 =? 0.75)%float = true ∧ (0.5 =? 0.5)%float = true ∧
  Forall (λ p : float * doc, not_nan p.1 = true)
    [(0.5%float, Sample.mastite); (0.75%float, Sample.bvd);
     (0.75%float, Sample.brucelose)] ∧
  (∃ ranked,
      rerank_documents_with_similarity Sample.encode Sample.cos_sim
        (lit "mastite") [Sample.mastite; Sample.bvd; Sample.brucelose]
        = Ok ranked ∧
      [Sample.bvd; Sample.brucelose] `sublist_of` ranked) ∧
  [Sample.mastite; Sample.bvd] `sublist_of`
    _rerank_documents_with_model Sample.is_decimal Sample.float_of_str
      Sample.chat_completion (lit "mastite")
      [Sample.mastite; Sample.bvd; Sample.brucelose].
Proof.
  assert (Hnan : Forall (λ p : float * doc, not_nan p.1 = true)
            [(0.5%float, Sample.mastite); (0.75%float, Sample.bvd);
             (0.75%float, Sample.brucelose)]) by (repeat constructor).
  split_and!; [reflexivity|reflexivity|exact Hnan| |].
  - destruct (rerank_ties_keep_input_order Sample.encode Sample.cos_sim
                Sample.is_decimal Sample.float_of_str Sample.chat_completion
                (lit "mastite") [Sample.mastite; Sample.bvd; Sample.brucelose]
                0.75%float 0.75%float Sample.bvd Sample.brucelose eq_refl)
      as [Hsim _].
    apply (Hsim [0.5%float]
             [(0.5%float, Sample.mastite); (0.75%float, Sample.bvd);
              (0.75%float, Sample.brucelose)] eq_refl eq_refl Hnan).
    apply sublist_cons. reflexivity.
  - destruct (rerank_ties_keep_input_order Sample.encode Sample.cos_sim
                Sample.is_decimal Sample.float_of_str Sample.chat_completion
                (lit "mastite") [Sample.mastite; Sample.bvd; Sample.brucelose]
                0.5%float 0.5%float Sample.mastite Sample.bvd eq_refl)
      as [_ Hmodel].
    apply (Hmodel
             [(0.5%float, Sample.mastite); (0.5%float, Sample.bvd);
              (0.75%float, Sample.brucelose)] eq_refl).
    apply sublist_skip, sublist_skip, sublist_nil_l.
Defined.

Lemma synthesis_of_bare_record :
  (∃ out,
      generate_rag_response Sample.float_repr (lit "mastite")
        [∅; Sample.mastite] = Ok out) ∧
  (∃ blocks,
      generate_rag_response Sample.float_repr (lit "mastite")
        [∅; Sample.mastite] =
        Ok (join [10; 10]%N
              ([lit "Resumo das principais informações encontradas sobre '"
                ++ lit "mastite" ++ lit "':"]
               ++ blocks
               ++ [lit "Recomendo avaliar as fontes citadas acima para detalhes adicionais."])) ∧
      Forall2
        (λ d block, ∃ snippet,
           block =
             lit "• Fonte: "
             ++ from_option (py_str Sample.float_repr)
                  (lit "Doença não identificada") (d !! "disease_name")
             ++ lit " ("
             ++ from_option (py_str Sample.float_repr) (lit "seção")
                  (d !! "section_type")
             ++ lit ")" ++ [10; 32; 32]%N ++ snippet ∧
           truncate_snippet (get_or d "section_text" (VStr []))
             = Ok (VStr snippet) ∧
           (d !! "section_text" = None → snippet = []))
        (take 3 [∅; Sample.mastite]) blocks) ∧
  ∃ snippet,
    citation_block Sample.float_repr ∅ =
      Ok (lit "• Fonte: "
          ++ from_option (py_str Sample.float_repr)
               (lit "Doença não identificada") ((∅ : doc) !! "disease_name")
          ++ lit " ("
          ++ from_option (py_str Sample.float_repr) (lit "seção")
               ((∅ : doc) !! "section_type")
          ++ lit ")" ++ [10; 32; 32]%N ++ snippet) ∧
    ((∅ : doc) !! "section_text" = None → snippet = []).
Proof.
  destruct (synthesizer_recovers_missing_fields Sample.float_repr
              (lit "mastite")) as (_ & Htotal & Hshape & Hblock).
  split_and!.
  - apply Htotal. repeat constructor.
  - apply Hshape; [discriminate|repeat constructor].
  - apply Hblock. exact I.
Defined.

(** The answer for one record without any field. *)
Example synthesis_of_bare_record_text :
  generate_rag_response Sample.float_repr (lit "mastite") [∅] =
    Ok (lit "Resumo das principais informações encontradas sobre 'mastite':"
        ++ [10; 10]%N
        ++ lit "• Fonte: Doença não identificada (seção)" ++ [10; 32; 32]%N
        ++ [10; 10]%N
        ++ lit "Recomendo avaliar as fontes citadas acima para detalhes adicionais.").
Proof. vm_compute. reflexivity. Qed.

Lemma embedding_of_blank_text :
  Forall (λ c, py_isspace c) [32; 9; 10]%N ∧
  _get_dense_embedding (Sample.vector_service_on []) (VStr [32; 9; 10]%N)
    = Ok (repeat 0%float 384) ∧
  length (repeat 0%float 384) = 384.
Proof.
  assert (H : Forall (λ c, py_isspace c) [32; 9; 10]%N)
    by (repeat constructor).
  split; [exact H|].
  exact (blank_text_embeds_to_zero_vector (Sample.vector_service_on []) _ H).
Defined.

Lemma positional_id_on_sample_batch :
  ∃ r,
    r ∈ prepare_data Sample.float_repr (Sample.vector_service_on []) 0
          [Sample.mastite; delete "chunk_id" Sample.bvd;
           Sample.chunk "  " "Raiva" "Encefalite."] ∧
    prepare_document Sample.float_repr (Sample.vector_service_on []) 1
      (delete "chunk_id" Sample.bvd) = Ok r ∧
    row_id r = lit "chunk_" ++ str_of_int (Z.of_nat 1 + 1) ∧
    insert_documents Sample.float_repr (Sample.vector_service_on [])
      [Sample.mastite; delete "chunk_id" Sample.bvd;
       Sample.chunk "  " "Raiva" "Encefalite."] =
      match client_insert (Sample.vector_service_on [])
              (prepare_data Sample.float_repr (Sample.vector_service_on []) 0
                 [Sample.mastite; delete "chunk_id" Sample.bvd;
                  Sample.chunk "  " "Raiva" "Encefalite."]) with
      | Ok _ => true
      | Raise _ => false
      end.
Proof.
  destruct (missing_chunk_id_gets_positional_id Sample.float_repr
              (Sample.vector_service_on [])
              [Sample.mastite; delete "chunk_id" Sample.bvd;
               Sample.chunk "  " "Raiva" "Encefalite."])
    as (_ & Hid & _ & _).
  apply (Hid 1 (delete "chunk_id" Sample.bvd) [1%float]).
  - reflexivity.
  - exact I.
  - reflexivity.
Defined.

Example prepare_data_ids_sample :
  row_id <$> prepare_data Sample.float_repr (Sample.vector_service_on []) 0
    [Sample.mastite; delete "chunk_id" Sample.bvd;
     Sample.chunk "  " "Raiva" "Encefalite."]
  = [lit "c1"; lit "chunk_2"; lit "chunk_3"].
Proof. by vm_compute. Qed.

(** * Further properties of the code *)

(** ** Floats and sorting *)

Lemma SFcompare_antisym (x y : spec_float) :
  SFcompare y x = CompOpp <$> SFcompare x y.
Proof.
  destruct x as [sx|sx| |sx mx ex], y as [sy|sy| |sy my ey];
    try destruct sx; try destruct sy; try reflexivity; simpl;
    rewrite (Z.compare_antisym ex ey);
    destruct (ex ?= ey)%Z; simpl; try reflexivity;
    rewrite <-(Pos.compare_cont_antisym _ _ Eq); simpl;
    by destruct (Pos.compare_cont _ _ _).
Qed.

Lemma float_ltb_asym (x y : float) :
  (x <? y)%float = true → (y <? x)%float = false.
Proof.
  rewrite !FloatAxioms.ltb_spec. unfold SFltb.
  rewrite (SFcompare_antisym (Prim2SF x) (Prim2SF y)).
  by destruct (SFcompare _ _) as [[]|].
Qed.

Section DescendingFacts.
Context {A : Type} (key : A → float).

Lemma descending_cons_inv x l : descending key (x :: l) → descending key l.
Proof. intros H i y z Hy Hz. by apply (H (S i) y z). Qed.

Lemma descending_cons x l :
  (∀ y l', l = y :: l' → (key x <? key y)%float = false) →
  descending key l → descending key (x :: l).
Proof.
  intros Hhd Hl [|i] y z Hy Hz.
  - injection Hy as <-. destruct l as [|y' l']; [done|].
    injection Hz as <-. by eapply Hhd.
  - by apply (Hl i y z).
Qed.

Lemma insert_desc_head x l :
  insert_desc key x l = x :: l ∨
  ∃ y l' l'', l = y :: l' ∧ insert_desc key x l = y :: l'' ∧
              (key x <? key y)%float = true.
Proof.
  destruct l as [|y l']; simpl; [by left|].
  destruct (key x <? key y)%float eqn:Hxy; [right|by left].
  by eexists _, _, _.
Qed.

Lemma insert_desc_descending x l :
  descending key l → descending key (insert_desc key x l).
Proof.
  induction l as [|y l IH]; intros Hl; simpl.
  - by intros [|[|i]] ? ? ? ?.
  - destruct (key x <? key y)%float eqn:Hxy.
    + apply descending_cons; [|by eapply IH, descending_cons_inv].
      intros z l' Hz.
      destruct (insert_desc_head x l)
        as [Hins|(z' & l0 & l1 & -> & Hins & _)];
        rewrite Hins in Hz; injection Hz as <- <-.
      * by apply float_ltb_asym.
      * by eapply (Hl 0).
    + apply descending_cons; [|done]. by intros ? ? [= <- <-].
Qed.

Lemma sort_desc_descending l : descending key (sort_desc key l).
Proof.
  induction l as [|x l IH]; simpl; [by intros [|i] ? ? ? ?|].
  by apply insert_desc_descending.
Qed.

(** Sorting a list that is already in descending order changes nothing. *)
Lemma sort_desc_fixed l : descending key l → sort_desc key l = l.
Proof.
  induction l as [|x l IH]; intros Hl; simpl; [done|].
  rewrite IH by by eapply descending_cons_inv.
  destruct l as [|y l]; simpl; [done|].
  by rewrite (Hl 0 x y).
Qed.

Lemma sort_desc_idemp l : sort_desc key (sort_desc key l) = sort_desc key l.
Proof. apply sort_desc_fixed, sort_desc_descending. Qed.

(** *** The descending stable order is unique *)

Local Abbreviation tie k := (λ x : A, Is_true (key x =? k)%float).

(** In a descending list without NaN keys no later entry has a greater
    key than the first. *)
Lemma descending_head x l :
  Forall (λ y, not_nan (key y) = true) l →
  descending key (x :: l) →
  Forall (λ y, (key x <? key y)%float = false) l.
Proof.
  intros Hnan. revert x.
  induction Hnan as [|y l Hy _ IH]; intros x Hl; constructor.
  - by apply (Hl 0 x y).
  - eapply Forall_impl; [apply (IH y), (descending_cons_inv x), Hl|].
    intros z Hz. simpl in Hz.
    apply (float_ltb_negtrans _ (key y)); [done| |done].
    by apply (Hl 0 x y).
Qed.

Lemma insert_desc_ties (k : float) x l :
  filter (tie k) (insert_desc key x l) = filter (tie k) (x :: l).
Proof.
  induction l as [|y l IH]; simpl; [done|].
  destruct (key x <? key y)%float eqn:Hxy; [|done].
  rewrite (filter_cons _ y), IH, !filter_cons.
  destruct (decide (tie k y)) as [Hy|Hy], (decide (tie k x)) as [Hx|Hx];
    try done.
  apply Is_true_true, float_eqb_defined in Hx as (_ & Hk & Hxk & _).
  apply Is_true_true, float_eqb_defined in Hy as (_ & _ & _ & Hky).
  by rewrite (float_ltb_negtrans _ _ _ Hk Hxk Hky) in Hxy.
Qed.

Lemma sort_desc_keeps_ties l : keeps_ties key l (sort_desc key l).
Proof.
  intros k. induction l as [|x l IH]; simpl; [done|].
  by rewrite insert_desc_ties, !filter_cons, IH.
Qed.

Lemma keeps_ties_nil_inv y l :
  not_nan (key y) = true → ¬ keeps_ties key [] (y :: l).
Proof.
  intros Hy H. specialize (H (key y)). rewrite filter_cons in H.
  by rewrite decide_True in H by by apply Is_true_true.
Qed.

Lemma descending_ties_unique l1 l2 :
  Forall (λ x, not_nan (key x) = true) l1 →
  Forall (λ x, not_nan (key x) = true) l2 →
  descending key l1 → descending key l2 →
  keeps_ties key l1 l2 → l1 = l2.
Proof.
  intros H1. revert l2.
  induction H1 as [|x l1 Hx Hl1 IH]; intros l2 H2 Hd1 Hd2 Hties.
  { destruct H2 as [|y l2 Hy _]; [done|].
    by destruct (keeps_ties_nil_inv y l2). }
  destruct H2 as [|y l2 Hy Hl2].
  { destruct (keeps_ties_nil_inv x l1 Hx). intros k. by rewrite Hties. }
  assert (Hxy : (key x <? key y)%float = false).
  { assert (Hin : y ∈ x :: l1).
    { eapply (list_elem_of_filter (tie (key y))). rewrite <-Hties.
      rewrite filter_cons, decide_True by by apply Is_true_true. left. }
    apply elem_of_cons in Hin as [->|Hin].
    - by apply float_eqb_defined.
    - by apply (proj1 (Forall_forall _ _) (descending_head x l1 Hl1 Hd1)). }
  assert (Hyx : (key y <? key x)%float = false).
  { assert (Hin : x ∈ y :: l2).
    { eapply (list_elem_of_filter (tie (key x))). rewrite Hties.
      rewrite filter_cons, decide_True by by apply Is_true_true. left. }
    apply elem_of_cons in Hin as [->|Hin].
    - by apply float_eqb_defined.
    - by apply (proj1 (Forall_forall _ _) (descending_head y l2 Hl2 Hd2)). }
  assert (x = y) as <-.
  { pose proof (Hties (key x)) as H. rewrite !filter_cons in H.
    rewrite decide_True in H
      by by apply Is_true_true, float_not_ltb_eqb.
    rewrite decide_True in H by by apply Is_true_true.
    by injection H. }
  f_equal. apply IH; [done|by eapply descending_cons_inv..|].
  intros k. specialize (Hties k). rewrite !filter_cons in Hties.
  destruct (decide (tie k x)); [by injection Hties|done].
Qed.

(** On keys that are not NaN the descending stable order is unique: a
    rearrangement of [l] that is in descending order and keeps the
    entries of equal key in their order is the list [sort_desc] returns. *)
Lemma sort_desc_unique l l' :
  Forall (λ x, not_nan (key x) = true) l →
  l' ≡ₚ l → descending key l' → keeps_ties key l l' →
  l' = sort_desc key l.
Proof.
  intros Hnan Hperm Hdesc Hties.
  apply descending_ties_unique.
  - by rewrite Hperm.
  - by rewrite sort_desc_perm.
  - done.
  - apply sort_desc_descending.
  - intros k. by rewrite (sort_desc_keeps_ties l k), Hties.
Qed.
(** In a descending list without NaN keys every entry has a key at
    least as great as each later one. *)
Lemma descending_pairwise l i j x y :
  Forall (λ x, not_nan (key x) = true) l → descending key l →
  i < j → l !! i = Some x → l !! j = Some y →
  (key y <=? key x)%float = true.
Proof.
  intros Hnan. revert i j.
  induction Hnan as [|a l Ha Hl IH]; intros i j Hdesc Hij Hx Hy; [done|].
  destruct j as [|j]; [lia|]. destruct i as [|i]; simpl in *.
  - injection Hx as <-.
    pose proof (descending_head a l Hl Hdesc) as Hhead.
    rewrite Forall_forall in Hhead, Hl.
    apply list_elem_of_lookup_2 in Hy.
    apply float_not_ltb_leb; [done|by apply Hl|by apply Hhead].
  - apply (IH i j); [by eapply descending_cons_inv|lia|done|done].
Qed.
End DescendingFacts.

Lemma descending_fmap {A} (key : A → float) (l : list A) :
  descending key l ↔ descending id (key <$> l).
Proof.
  split; intros H i x y.
  - rewrite !list_lookup_fmap.
    destruct (l !! i) as [x'|] eqn:Hx; [|done].
    destruct (l !! S i) as [y'|] eqn:Hy; [|done].
    intros [= <-] [= <-]. by apply (H i).
  - intros Hx Hy. apply (H i (key x) (key y));
      rewrite list_lookup_fmap; [by rewrite Hx|by rewrite Hy].
Qed.

(** ** Reranking: order, idempotence, aborted scoring *)

Lemma mapM_from_Raise {A B} (f : nat → A → result B) i l :
  Exists (λ x, ∀ j, ∃ e, f j x = Raise e) l →
  ∃ e, mapM_from f i l = Raise e.
Proof.
  intros H. revert i. induction H as [x l Hx|x l _ IH]; intros i; simpl.
  - destruct (Hx i) as [e ->]. by exists e.
  - destruct (f i x) as [y|e]; simpl; [|by exists e].
    destruct (IH (S i)) as [e ->]. by exists e.
Qed.

Section RerankOrder.
Variable encode : pyval → result (list float).
Variable cos_sim : list float → list float → float.
Variable is_decimal : char → bool.
Variable float_of_str : str → float.
Variable chat_completion : nat → list doc → result doc.

Lemma score_by_similarity_entries qe docs scored :
  score_by_similarity encode cos_sim qe docs = Ok scored →
  Forall (λ p, has_text p.2 ∧ similarity_of encode cos_sim qe p.2 p.1) scored.
Proof.
  revert scored. induction docs as [|d docs IH]; intros scored; simpl.
  - intros [= <-]. constructor.
  - destruct (truthy _) eqn:Ht; simpl; [|apply IH].
    intros (emb & Hemb & (rest & Hrest & [= <-])%bind_Ok)%bind_Ok.
    constructor; [|by apply IH]. simpl. split.
    + unfold has_text. by rewrite Ht.
    + by exists emb.
Qed.

Lemma score_by_similarity_of_entries qe (l : list (float * doc)) :
  Forall (λ p, has_text p.2 ∧ similarity_of encode cos_sim qe p.2 p.1) l →
  score_by_similarity encode cos_sim qe (l.*2) = Ok l.
Proof.
  induction 1 as [|[s d] l [Ht (emb & Hemb & Hs)] _ IH]; simpl in *; [done|].
  subst s. unfold has_text in Ht. apply Is_true_true in Ht.
  rewrite Ht. simpl. rewrite Hemb. simpl.
  change (list_fmap _ _ snd l) with (l.*2). by rewrite IH.
Qed.

Lemma score_by_similarity_not_nan q qe docs scored :
  similarities_not_nan encode cos_sim q docs →
  encode (VStr q) = Ok qe →
  score_by_similarity encode cos_sim qe docs = Ok scored →
  Forall (λ p, not_nan p.1 = true) scored.
Proof.
  intros Hnan Hq Hs. pose proof (score_by_similarity_docs _ _ _ _ _ Hs) as Hdocs.
  apply score_by_similarity_entries in Hs.
  apply Forall_forall. intros [s d] Hp. simpl.
  apply (proj1 (Forall_forall _ _) Hs) in Hp as Hd. simpl in Hd.
  destruct Hd as [_ (emb & Hemb & ->)]. apply (Hnan qe d emb); [done| |done].
  assert (Hin : d ∈ scored.*2).
  { apply list_elem_of_fmap. by exists (cos_sim qe emb, d). }
  rewrite Hdocs in Hin. by apply list_elem_of_filter in Hin as [_ ?].
Qed.

(** X1. When no similarity of the batch is NaN, the documents returned
    by the similarity strategy stand in descending order of their
    similarity to the query: each has a score, the cosine of the query
    embedding and of the embedding of its text; no document is directly
    followed by one with a strictly higher score, and the score of every
    document is at least the score of each document after it. *)
Theorem rerank_similarity_descending (q : str) (docs ranked : list doc) :
  similarities_not_nan encode cos_sim q docs →
  rerank_documents_with_similarity encode cos_sim q docs = Ok ranked →
  ∃ scores,
    Forall2
      (λ d s, ∃ qe, encode (VStr q) = Ok qe ∧
                    similarity_of encode cos_sim qe d s)
      ranked scores ∧
    descending id scores ∧
    ∀ i j x y,
      i < j → scores !! i = Some x → scores !! j = Some y →
      (y <=? x)%float = true.
Proof.
  intros Hnan. destruct docs as [|d0 docs].
  { intros [= <-]. exists []. split; [constructor|]. split; [|done].
    by intros [|i] ? ? ? ?. }
  rewrite rerank_similarity_nonempty by done.
  intros (qe & Hq & (scored & Hs & [= <-])%bind_Ok)%bind_Ok.
  exists ((sort_desc fst scored).*1). split_and!.
  - apply score_by_similarity_entries in Hs.
    rewrite <-(sort_desc_perm fst scored) in Hs.
    induction Hs as [|[s d] l [_ Hd] _ IH]; simpl; constructor; [|done].
    by exists qe.
  - apply (proj1 (descending_fmap fst _)), sort_desc_descending.
  - intros i j x y Hij. rewrite !list_lookup_fmap.
    destruct (sort_desc fst scored !! i) as [p|] eqn:Hp; [|done].
    destruct (sort_desc fst scored !! j) as [p'|] eqn:Hp'; [|done].
    intros [= <-] [= <-].
    apply (descending_pairwise fst (sort_desc fst scored) i j); try done.
    + rewrite (sort_desc_perm fst scored).
      by eapply score_by_similarity_not_nan.
    + apply sort_desc_descending.
Qed.

(** X2. When no similarity of the batch is NaN, reranking is idempotent
    under the similarity strategy: ranking the returned list again, for
    the same query, returns it unchanged. *)
Theorem rerank_similarity_idempotent (q : str) (docs ranked : list doc) :
  similarities_not_nan encode cos_sim q docs →
  rerank_documents_with_similarity encode cos_sim q docs = Ok ranked →
  similarities_not_nan encode cos_sim q ranked ∧
  rerank_documents_with_similarity encode cos_sim q ranked = Ok ranked.
Proof.
  intros Hnan Hrun. split.
  { intros qe d emb Hq Hd. apply Hnan; [done|].
    pose proof (rerank_similarity_cases encode cos_sim q docs) as Hcases.
    rewrite Hrun in Hcases. rewrite Hcases in Hd.
    by apply list_elem_of_filter in Hd as [_ ?]. }
  revert Hrun.
  destruct docs as [|d0 docs]; [by intros [= <-]|].
  rewrite rerank_similarity_nonempty by done.
  intros (qe & Hq & (scored & Hs & [= <-])%bind_Ok)%bind_Ok.
  destruct ((sort_desc fst scored).*2) as [|d1 ranked] eqn:Hranked; [done|].
  rewrite rerank_similarity_nonempty by done.
  rewrite <-Hranked, Hq. cbn [mbind result_bind].
  rewrite score_by_similarity_of_entries.
  - cbn [mbind result_bind]. by rewrite sort_desc_idemp.
  - rewrite (sort_desc_perm fst scored).
    by eapply score_by_similarity_entries.
Qed.

Lemma score_document_Raise q i d :
  ¬ text_absent_or_str d →
  score_document is_decimal float_of_str chat_completion q i d
    = Raise TypeError.
Proof.
  unfold text_absent_or_str, score_document, get_or.
  by destruct (d !! "section_text") as [[| | |]|].
Qed.

Lemma score_document_range q i d p :
  score_document is_decimal float_of_str chat_completion q i d = Ok p →
  (0 <=? p.1)%float = true ∧ (p.1 <=? 1)%float = true.
Proof.
  unfold score_document. intros (text & _ & Hp)%bind_Ok.
  destruct (request_score _ _ _ _ _ _) as [s|] eqn:Hreq;
    injection Hp as <-; simpl; [|done].
  unfold request_score in Hreq.
  apply bind_Ok in Hreq as (? & _ & (? & _ & (? & _ & Hs)%bind_Ok)%bind_Ok).
  destruct (re_search_number _ _); injection Hs as <-; [|done].
  apply clamp_score_range.
Qed.

(** X3. The model-scoring strategy either scores the whole batch, and
    then every score lies between 0.0 and 1.0 and the documents are
    returned by descending score, or scoring raises and the batch is
    returned in its input order. *)
Theorem rerank_model_descending_or_unchanged (q : str) (docs : list doc) :
  match score_all is_decimal float_of_str chat_completion q docs with
  | Ok scored =>
    Forall (λ p, (0 <=? p.1)%float = true ∧ (p.1 <=? 1)%float = true) scored ∧
    _rerank_documents_with_model is_decimal float_of_str chat_completion
      q docs = (sort_desc fst scored).*2 ∧
    descending fst (sort_desc fst scored)
  | Raise _ =>
    _rerank_documents_with_model is_decimal float_of_str chat_completion
      q docs = docs
  end.
Proof.
  unfold _rerank_documents_with_model.
  destruct (score_all _ _ _ _ _) as [scored|e] eqn:Hs; [|done].
  split_and!; [|done|apply sort_desc_descending].
  unfold score_all in Hs. apply mapM_from_Ok in Hs.
  induction Hs as [|d p ds ps [i Hp] _ IH]; constructor; [|done].
  by eapply score_document_range.
Qed.

(** X4. One record whose text is present but not a string switches the
    model-scoring strategy off for the whole batch: the documents come back
    in their input order, whatever the model replies. *)
Theorem rerank_model_aborts_on_untyped_text (q : str) (docs : list doc) :
  Exists (λ d, ¬ text_absent_or_str d) docs →
  _rerank_documents_with_model is_decimal float_of_str chat_completion
    q docs = docs.
Proof.
  intros Hbad. unfold _rerank_documents_with_model, score_all.
  destruct (mapM_from_Raise
              (score_document is_decimal float_of_str chat_completion q)
              0 docs) as [e ->]; [|done].
  eapply Exists_impl; [exact Hbad|]. intros d Hd j.
  exists TypeError. by apply score_document_Raise.
Qed.
End RerankOrder.

(** ** The numeric token and the clamp *)
Section TokenShape.
Variable is_decimal : char → bool.


End TokenShape.

Lemma float_leb_not_ltb (x y : float) :
  (x <=? y)%float = true → (y <? x)%float = false.
Proof.
  rewrite FloatAxioms.leb_spec, FloatAxioms.ltb_spec. unfold SFleb, SFltb.
  rewrite (SFcompare_antisym (Prim2SF x) (Prim2SF y)).
  by destruct (SFcompare _ _) as [[]|].
Qed.

(** X6. The clamp leaves a score strictly between 0.0 and 1.0 unchanged
    and maps every score of 1.0 or more, such as a reply on a scale of 10
    or 100, to 1.0. *)
Theorem clamp_score_inside_and_above (x : float) :
  ((0 <? x)%float = true → (x <? 1)%float = true → clamp_score x = x) ∧
  ((1 <=? x)%float = true → clamp_score x = 1%float).
Proof.
  unfold clamp_score, py_min, py_max. split.
  - intros Hlo Hhi. by rewrite Hhi, Hlo.
  - intros Hge. by rewrite (float_leb_not_ltb _ _ Hge).
Qed.

(** ** Synthesis: the three cited documents and the failure case *)
Section SynthesisMore.
Variable float_repr : float → str.

(** X7. The answer is built from the first three documents only: any
    further document changes nothing. *)
Theorem generate_rag_response_first_three (q : str) (docs : list doc) :
  generate_rag_response float_repr q docs
  = generate_rag_response float_repr q (take 3 docs).
Proof.
  destruct docs as [|d docs]; [done|].
  unfold generate_rag_response. cbn [take]. by rewrite take_take.
Qed.

Lemma truncate_snippet_Raise (v : pyval) (e : exn) :
  truncate_snippet v = Raise e → e = TypeError ∧ ∀ s, v ≠ VStr s.
Proof.
  destruct v as [|s|z|f]; try by intros [= <-].
  destruct (truncate_snippet_str s) as [out ->]. done.
Qed.

Lemma citation_block_Raise (d : doc) (e : exn) :
  citation_block float_repr d = Raise e →
  e = TypeError ∧ ¬ text_absent_or_str d.
Proof.
  unfold citation_block.
  intros [H|(? & _ & [=])]%bind_Raise.
  apply truncate_snippet_Raise in H as [-> Hv]. split; [done|].
  unfold text_absent_or_str. unfold get_or in Hv.
  destruct (d !! "section_text") as [[|s| |]|]; cbn in Hv; try tauto.
  - by destruct (Hv s).
  - by destruct (Hv []).
Qed.

Lemma mapM_from_Raise_inv {A B} (f : nat → A → result B) i l e :
  mapM_from f i l = Raise e → ∃ x j, x ∈ l ∧ f j x = Raise e.
Proof.
  revert i. induction l as [|x l IH]; intros i; simpl; [done|].
  intros [Hx|(y & _ & [Hl|(? & _ & [=])]%bind_Raise)]%bind_Raise.
  - exists x, i. split; [left|done].
  - destruct (IH _ Hl) as (x' & j & ? & ?). exists x', j. split; [by right|done].
Qed.

(** X8. The synthesizer fails in one case only: it raises [TypeError]
    exactly when one of the first three documents carries a text that is
    not a string. *)
Theorem generate_rag_response_raises_iff (q : str) (docs : list doc) (e : exn) :
  generate_rag_response float_repr q docs = Raise e ↔
  e = TypeError ∧ Exists (λ d, ¬ text_absent_or_str d) (take 3 docs).
Proof.
  assert (Hraise : ∀ e', generate_rag_response float_repr q docs = Raise e' →
            e' = TypeError ∧ Exists (λ d, ¬ text_absent_or_str d) (take 3 docs)).
  { intros e'. unfold generate_rag_response.
    destruct docs as [|d0 docs]; [done|].
    intros [H|(? & _ & [=])]%bind_Raise.
    apply mapM_from_Raise_inv in H as (d & j & Hd & [-> Hbad]%citation_block_Raise).
    split; [done|]. apply Exists_exists. by exists d. }
  split; [apply Hraise|]. intros [-> Hbad].
  destruct (generate_rag_response float_repr q docs) as [out|e'] eqn:Hgen.
  - exfalso. revert Hgen. unfold generate_rag_response.
    destruct docs as [|d0 docs]; [by apply Exists_nil in Hbad|].
    destruct (mapM_from_Raise (λ _, citation_block float_repr) 0
                (take 3 (d0 :: docs))) as [e' ->]; [|done].
    eapply Exists_impl; [exact Hbad|]. intros d Hd _.
    destruct (citation_block float_repr d) as [b|e'] eqn:Hb; [|by exists e'].
    exfalso. apply Hd.
    unfold citation_block in Hb. apply bind_Ok in Hb as (v & Hv & _).
    unfold text_absent_or_str. unfold get_or in Hv.
    by destruct (d !! "section_text") as [[| | |]|].
  - by destruct (Hraise e' eq_refl) as [-> _].
Qed.
End SynthesisMore.

(** ** The vector service: embedding, search, insertion *)

Lemma lstrip_split (s : str) :
  ∃ pre, s = pre ++ lstrip s ∧ Forall (λ c, py_isspace c) pre.
Proof.
  induction s as [|c s (pre & Hs & Hpre)]; simpl; [by exists []|].
  destruct (py_isspace c) eqn:Hc.
  - exists (c :: pre). split; [simpl; by f_equal|].
    constructor; [by apply Is_true_true|done].
  - by exists [].
Qed.

Lemma lstrip_nil (s : str) : lstrip s = [] → Forall (λ c, py_isspace c) s.
Proof.
  intros Hs. destruct (lstrip_split s) as (pre & Heq & Hpre).
  rewrite Hs, app_nil_r in Heq. by subst.
Qed.

Lemma strip_nil_iff (s : str) : strip s = [] ↔ Forall (λ c, py_isspace c) s.
Proof.
  split; [|apply strip_blank]. unfold strip, rstrip. intros H.
  apply (f_equal (@rev _)) in H. rewrite rev_involutive in H. simpl in H.
  apply lstrip_nil in H. apply Forall_rev in H. rewrite rev_involutive in H.
  destruct (lstrip_split s) as (pre & Heq & Hpre).
  rewrite Heq. by apply Forall_app.
Qed.

(** X9. The embedding of a text: the vector of zeros when the text is
    empty or all whitespace, the encoder's result, unchanged, for every
    other string, and [AttributeError] for a value that is not a string. *)
Theorem dense_embedding_cases (self : VectorService) (text : pyval) :
  _get_dense_embedding self text =
  match text with
  | VStr s =>
    if forallb py_isspace s then Ok (repeat 0%float (embedding_dim self))
    else embedding_model self s
  | _ => Raise AttributeError
  end.
Proof.
  destruct text as [|s|z|f]; try done.
  unfold _get_dense_embedding, py_strip. cbn [mbind result_bind].
  destruct (forallb py_isspace s) eqn:Hs.
  - rewrite bool_decide_eq_true_2; [done|]. apply strip_nil_iff.
    apply Forall_forall. intros c Hc. apply Is_true_true.
    rewrite forallb_forall in Hs. by apply Hs, list_elem_of_In.
  - rewrite bool_decide_eq_false_2; [done|]. intros H%strip_nil_iff.
    rewrite <-not_true_iff_false, forallb_forall in Hs. apply Hs.
    intros c Hc%list_elem_of_In. apply Is_true_true.
    by apply (proj1 (Forall_forall _ _) H).
Qed.

Lemma document_of_hit_dom (h : hit) : dom (document_of_hit h) = SEARCH_KEYS.
Proof.
  unfold document_of_hit, SEARCH_KEYS. cbv zeta.
  rewrite !dom_insert_L, dom_singleton_L. simpl. set_solver.
Qed.

(** X10. A search that returns holds one document per hit of the first
    result list of the store, in the store's order; every document has
    exactly the nine metadata fields and the score, whatever the hit
    holds.  A search that raises does so with the error of the embedding
    or of the store client, unchanged. *)
Theorem hybrid_search_documents (self : VectorService) (q : str) (k : Z) :
  match hybrid_search self q k with
  | Ok docs =>
    ∃ emb results,
      _get_dense_embedding self (VStr q) = Ok emb ∧
      client_search self emb k = Ok results ∧
      docs = document_of_hit <$> hd [] results ∧
      Forall (λ d, dom d = SEARCH_KEYS) docs
  | Raise e =>
    _get_dense_embedding self (VStr q) = Raise e ∨
    ∃ emb, _get_dense_embedding self (VStr q) = Ok emb ∧
           client_search self emb k = Raise e
  end.
Proof.
  unfold hybrid_search.
  destruct (_get_dense_embedding self (VStr q)) as [emb|e]; [|by left].
  cbn [mbind result_bind].
  destruct (client_search self emb k) as [results|e] eqn:Hsearch;
    cbn [mbind result_bind]; [|right; by exists emb].
  destruct results as [|hits rest].
  - exists emb, []. by split_and!.
  - exists emb, (hits :: rest). split_and!; [done..|].
    apply Forall_forall. intros d (h & -> & _)%list_elem_of_fmap.
    apply document_of_hit_dom.
Qed.

(** X11. A blank query is not an error: it is searched with the vector of
    zeros, and the encoder is not consulted. *)
Theorem hybrid_search_blank_query (self : VectorService) (q : str) (k : Z) :
  Forall (λ c, py_isspace c) q →
  hybrid_search self q k =
  (results ← client_search self (repeat 0%float (embedding_dim self)) k;
   Ok (document_of_hit <$> hd [] results)).
Proof.
  intros Hq. unfold hybrid_search, _get_dense_embedding, py_strip.
  cbn [mbind result_bind]. rewrite (strip_blank q Hq).
  rewrite bool_decide_eq_true_2 by done. cbn [mbind result_bind].
  destruct (client_search _ _ _) as [[|hits ?]|]; done.
Qed.

(** Decimal notation is injective. *)
Lemma utf8_decode_ascii (s : string) :
  Forall (λ a, (N_of_ascii a <? 128)%N = true) (list_ascii_of_string s) →
  utf8_decode s = N_of_ascii <$> list_ascii_of_string s.
Proof.
  induction s as [|a s IH]; [done|].
  intros [Ha Hs]%Forall_cons. cbn [utf8_decode list_ascii_of_string fmap list_fmap].
  cbv zeta. rewrite Ha. f_equal. by apply IH.
Qed.

Lemma string_of_uint_ascii (d : Decimal.uint) :
  Forall (λ a, (N_of_ascii a <? 128)%N = true)
    (list_ascii_of_string (NilEmpty.string_of_uint d)).
Proof. induction d; simpl; by constructor. Qed.

Lemma string_of_int_ascii (d : Decimal.int) :
  Forall (λ a, (N_of_ascii a <? 128)%N = true)
    (list_ascii_of_string (NilZero.string_of_int d)).
Proof.
  assert (Hu : ∀ u, Forall (λ a, (N_of_ascii a <? 128)%N = true)
                 (list_ascii_of_string (NilZero.string_of_uint u))).
  { intros u. destruct u; [by repeat constructor|..];
      match goal with
      | |- context [NilZero.string_of_uint ?x] =>
        exact (string_of_uint_ascii x)
      end. }
  destruct d as [d|d]; simpl; [apply Hu|]. constructor; [done|apply Hu].
Qed.

Lemma N_of_ascii_inj (a b : ascii) : N_of_ascii a = N_of_ascii b → a = b.
Proof.
  intros H. by rewrite <-(ascii_N_embedding a), <-(ascii_N_embedding b), H.
Qed.

Lemma str_of_int_inj (z1 z2 : Z) : str_of_int z1 = str_of_int z2 → z1 = z2.
Proof.
  unfold str_of_int. rewrite !utf8_decode_ascii by apply string_of_int_ascii.
  intros H. apply DecimalZ.to_int_inj.
  assert (Hnn : ∀ z, Z.to_int z ≠ Decimal.Pos Decimal.Nil ∧
                     Z.to_int z ≠ Decimal.Neg Decimal.Nil).
  { intros [|p|p]; simpl; split; try done; intros [= Hp];
      by apply DecimalPos.Unsigned.to_uint_nonnil in Hp. }
  assert (Heq : NilZero.string_of_int (Z.to_int z1)
                = NilZero.string_of_int (Z.to_int z2)).
  { rewrite <-(string_of_list_ascii_of_string (NilZero.string_of_int (Z.to_int z1))),
            <-(string_of_list_ascii_of_string (NilZero.string_of_int (Z.to_int z2))).
    f_equal. revert H. generalize (list_ascii_of_string
      (NilZero.string_of_int (Z.to_int z1))) as l1.
    generalize (list_ascii_of_string
      (NilZero.string_of_int (Z.to_int z2))) as l2.
    intros l2 l1. revert l2.
    induction l1 as [|a l1 IH]; intros [|b l2]; simpl; try done.
    intros [= Hab Hl]. f_equal; [by apply N_of_ascii_inj|by apply IH]. }
  apply (f_equal NilZero.int_of_string) in Heq.
  destruct (Hnn z1), (Hnn z2). rewrite !NilZero.isi in Heq by done.
  by injection Heq.
Qed.

Section InsertionMore.
Variable float_repr : float → str.

Lemma prepare_document_embeds self i d :
  match prepare_document float_repr self i d with
  | Ok r =>
    embeds self d = true ∧
    row_section_text r
      = py_str float_repr (get_or d "section_text" (VStr []))
  | Raise _ => embeds self d = false
  end.
Proof.
  unfold prepare_document, embeds.
  by destruct (_get_dense_embedding _ _).
Qed.

Lemma prepare_data_rows self i docs :
  row_section_text <$> prepare_data float_repr self i docs
  = (λ d, py_str float_repr (get_or d "section_text" (VStr [])))
      <$> filter (λ d, embeds self d) docs.
Proof.
  revert i. induction docs as [|d docs IH]; intros i; [done|].
  cbn [prepare_data]. rewrite filter_cons.
  pose proof (prepare_document_embeds self i d) as Hd.
  destruct (prepare_document _ _ _ _) as [r|e].
  - destruct Hd as [He Hr]. rewrite decide_True by by apply Is_true_true.
    cbn [fmap list_fmap]. rewrite Hr. f_equal. apply IH.
  - rewrite decide_False by by apply Is_true_false. apply IH.
Qed.

(** X12. [insert_documents] hands the store one row per record whose
    text can be embedded, in batch order, each with the text of its
    record, and skips the other records; it returns [True] exactly when at
    least one record was embedded and the store accepted the rows, so it
    returns [False] for an empty batch. *)
Theorem insert_documents_true_iff (self : VectorService) (docs : list doc) :
  row_section_text <$> prepare_data float_repr self 0 docs
  = (λ d, py_str float_repr (get_or d "section_text" (VStr [])))
      <$> filter (λ d, embeds self d) docs ∧
  (insert_documents float_repr self docs = true ↔
   Exists (λ d, embeds self d) docs ∧
   ∃ u, client_insert self (prepare_data float_repr self 0 docs) = Ok u).
Proof.
  split; [apply prepare_data_rows|].
  pose proof (prepare_data_rows self 0 docs) as Hrows.
  assert (Hnil : prepare_data float_repr self 0 docs = [] ↔
                 ¬ Exists (λ d, embeds self d) docs).
  { assert (Hlen : length (prepare_data float_repr self 0 docs)
                   = length (filter (λ d, embeds self d) docs)).
    { apply (f_equal length) in Hrows. by rewrite !length_fmap in Hrows. }
    rewrite <-Forall_Exists_neg. split.
    - intros Hd. rewrite Hd in Hlen. symmetry in Hlen.
      apply nil_length_inv in Hlen.
      apply Forall_forall. intros d Hin He.
      assert (d ∈ filter (λ d, embeds self d) docs)
        by by apply list_elem_of_filter.
      rewrite Hlen in *. by eapply not_elem_of_nil.
    - intros H. apply nil_length_inv. rewrite Hlen. clear Hlen Hrows.
      induction H as [|d l Hd _ IH]; [done|].
      rewrite filter_cons. by rewrite decide_False. }
  unfold insert_documents. destruct docs as [|d0 docs].
  { split; [done|]. by intros [?%Exists_nil _]. }
  destruct (prepare_data float_repr self 0 (d0 :: docs)) as [|r rows] eqn:Hdata.
  - split; [done|]. intros [He _]. by destruct (proj1 Hnil eq_refl).
  - destruct (client_insert self (r :: rows)) as [[]|e]; split; try done.
    + intros _. split; [|by eexists].
      destruct (decide (Exists (λ d, embeds self d) (d0 :: docs)))
        as [|Hn]; [done|]. by apply (proj2 Hnil) in Hn.
    + by intros [_ [u [=]]].
Qed.

(** X13. Two records of a batch that both lack a chunk id never share an
    id: the positional ids of distinct positions differ. *)
Theorem positional_ids_distinct (self : VectorService) (i j : nat)
    (d1 d2 : doc) (r1 r2 : row) :
  i ≠ j → lacks_chunk_id d1 → lacks_chunk_id d2 →
  prepare_document float_repr self i d1 = Ok r1 →
  prepare_document float_repr self j d2 = Ok r2 →
  row_id r1 ≠ row_id r2.
Proof.
  intros Hij Hd1 Hd2 Hr1 Hr2.
  assert (Hid : ∀ k d r, lacks_chunk_id d →
            prepare_document float_repr self k d = Ok r →
            row_id r = lit "chunk_" ++ str_of_int (Z.of_nat k + 1)).
  { intros k d r Hd Hr. pose proof Hr as Hr'. unfold prepare_document in Hr'.
    apply bind_Ok in Hr' as (v & Hv & _).
    destruct (prepare_document_Ok float_repr self k d v Hv)
      as (r' & Hr' & _ & _ & _ & Hid).
    rewrite Hr in Hr'. injection Hr' as <-. by apply Hid. }
  rewrite (Hid i d1 r1), (Hid j d2 r2) by done.
  intros Heq%app_inv_head%str_of_int_inj. lia.
Qed.

End InsertionMore.

(** ** The orchestrator: lifecycle and composition *)
Section LifecycleFacts.
Variable encode : pyval → result (list float).
Variable cos_sim : list float → list float → float.
Variable float_repr : float → str.
Variable VectorService_new : result VectorService.
Variable initialize : VectorService → result unit.

(** [ask] when the search raises. *)
Lemma ask_search_raises (q : str) (k : option Z) (m m1 m2 : machine) (e : exn) :
  startup VectorService_new initialize m = (Ok tt, m1) →
  search q (top_k_or k (top_k_default (service m)) * 2) m1 = (Raise e, m2) →
  ask encode cos_sim float_repr VectorService_new initialize q k m
    = (Raise e, m2).
Proof.
  intros Hstart Hsearch. unfold ask.
  unfold mbind at 1, M_bind at 1, get_self at 1. cbv beta iota.
  unfold mbind at 1, M_bind at 1. rewrite startup_guard, Hstart.
  unfold mbind at 1, M_bind at 1. by rewrite Hsearch.
Qed.

(** The calls of [ask] on a ready service start with the search. *)
Lemma ask_ready_calls (q : str) (k : option Z) (m m' : machine)
    (vs : VectorService) (r : result AnswerResult) :
  vector_service (service m) = Some vs →
  ask encode cos_sim float_repr VectorService_new initialize q k m = (r, m') →
  ∃ rest,
    calls m' = calls m
      ++ CallHybridSearch q (top_k_or k (top_k_default (service m)) * 2)
      :: rest.
Proof.
  intros Hvs Hask.
  pose proof (startup_ready VectorService_new initialize m vs Hvs) as Hstart.
  pose proof (search_run q (top_k_or k (top_k_default (service m)) * 2) m)
    as Hsearch.
  rewrite Hvs in Hsearch.
  destruct (hybrid_search vs q _) as [documents|e].
  - rewrite (ask_after_search _ _ _ _ _ q k m m _ documents Hstart Hsearch)
      in Hask.
    destruct documents as [|d documents].
    { injection Hask as _ <-. by exists []. }
    cbv zeta in Hask.
    destruct (rerank_documents_with_similarity _ _ _ _) as [ranked|];
      [|injection Hask as _ <-; eexists; cbn [calls];
        by rewrite <-app_assoc].
    destruct (generate_rag_response _ _ _) as [answer|];
      [|injection Hask as _ <-; eexists; cbn [calls];
        by rewrite <-!app_assoc].
    destruct (mapM_from _ _ _) as [srcs|];
      injection Hask as _ <-; eexists; cbn [calls];
        by rewrite <-!app_assoc.
  - rewrite (ask_search_raises q k m m _ e Hstart Hsearch) in Hask.
    injection Hask as _ <-. by exists [].
Qed.

(** X15. [startup] is idempotent: once it has succeeded, the service is
    ready and a further [startup] constructs nothing and changes
    nothing. *)
Theorem startup_idempotent (m m1 : machine) :
  startup VectorService_new initialize m = (Ok tt, m1) →
  is_Some (vector_service (service m1)) ∧
  startup VectorService_new initialize m1 = (Ok tt, m1).
Proof.
  intros [(vs & Hvs & ->)|(vs & _ & _ & _ & ->)]%startup_Ok.
  - split; [by rewrite Hvs|by eapply startup_ready].
  - split; [done|by eapply startup_ready].
Qed.

(** X16. When [initialize] raises, [startup] raises the same error but
    keeps the service it has just constructed: a later [startup] then
    reports success without initializing anything, and [ask] goes straight
    to the search. *)
Theorem startup_keeps_uninitialized_service (m : machine)
    (vs : VectorService) (e : exn) :
  vector_service (service m) = None →
  VectorService_new = Ok vs →
  initialize vs = Raise e →
  ∃ m1,
    startup VectorService_new initialize m = (Raise e, m1) ∧
    vector_service (service m1) = Some vs ∧
    startup VectorService_new initialize m1 = (Ok tt, m1) ∧
    ∀ q top_k r m2,
      ask encode cos_sim float_repr VectorService_new initialize q top_k m1
        = (r, m2) →
      ∃ rest,
        calls m2 = calls m1
          ++ CallHybridSearch q (top_k_or top_k (top_k_default (service m1)) * 2)
          :: rest.
Proof.
  intros Hvs Hnew Hinit.
  exists {| service := {| vector_service := Some vs;
                          top_k_default := top_k_default (service m) |};
            calls := calls m ++ [CallStartup] |}.
  split_and!; [|done|by eapply startup_ready|].
  - unfold startup, get_self, mbind, M_bind, enter, lift, set_vector_service.
    rewrite Hvs, Hnew. simpl. by rewrite Hinit.
  - intros q top_k r m2. by apply ask_ready_calls with vs.
Qed.

Lemma shutdown_run (m : machine) :
  ∃ m',
    shutdown m = (Ok tt, m') ∧
    vector_service (service m') = None ∧
    top_k_default (service m') = top_k_default (service m) ∧
    calls m' = calls m.
Proof.
  destruct m as [[[vs|] dflt] log];
    unfold shutdown, get_self, mbind, M_bind, set_vector_service; simpl;
    by eexists.
Qed.

(** X17. [shutdown] always succeeds, also when closing the client raises:
    it leaves the service without a vector service, keeps its
    configuration, and a second [shutdown] changes nothing. *)
Theorem shutdown_resets_service (m : machine) :
  ∃ m',
    shutdown m = (Ok tt, m') ∧
    vector_service (service m') = None ∧
    top_k_default (service m') = top_k_default (service m) ∧
    calls m' = calls m ∧
    shutdown m' = (Ok tt, m').
Proof.
  destruct (shutdown_run m) as (m' & Hrun & Hnone & Hdflt & Hcalls).
  exists m'. split_and!; [done..|].
  destruct m' as [[[vs|] dflt] log]; [discriminate Hnone|reflexivity].
Qed.

(** X18. After a [shutdown], a further [ask] starts the service up
    again before it searches. *)
Theorem ask_after_shutdown_starts_up (q : str) (top_k : option Z)
    (m m0 m' : machine) (out : AnswerResult) :
  shutdown m0 = (Ok tt, m) →
  ask encode cos_sim float_repr VectorService_new initialize q top_k m
    = (Ok out, m') →
  ∃ vs rest,
    VectorService_new = Ok vs ∧ initialize vs = Ok tt ∧
    vector_service (service m') = Some vs ∧
    calls m' = calls m0 ++ CallStartup
      :: CallHybridSearch q (top_k_or top_k (top_k_default (service m0)) * 2)
      :: rest.
Proof.
  intros Hshut Hask.
  destruct (shutdown_run m0) as (m1 & Hm1 & Hnone & Hdflt & Hcalls).
  rewrite Hshut in Hm1. injection Hm1 as <-.
  destruct (ask_Ok _ _ _ _ _ q top_k m m' out Hask)
    as (m1 & m2 & documents & Hstart & Hsearch).
  rewrite (ask_after_search _ _ _ _ _ q top_k m m1 m2 documents Hstart Hsearch)
    in Hask.
  apply startup_Ok in Hstart as [(vs & Hvs & ->)|(vs & _ & Hnew & Hinit & ->)];
    [congruence|].
  rewrite search_run in Hsearch. cbn [service vector_service calls] in Hsearch.
  injection Hsearch as Hdocs <-.
  exists vs. rewrite <-Hcalls, <-Hdflt.
  destruct documents as [|d documents].
  - injection Hask as _ <-. exists []. cbn [service vector_service calls].
    by rewrite <-app_assoc.
  - cbv zeta in Hask.
    destruct (rerank_documents_with_similarity _ _ _ _) as [ranked|]; [|done].
    destruct (generate_rag_response _ _ _) as [answer|]; [|done].
    destruct (mapM_from _ _ _) as [srcs|]; [|done].
    injection Hask as _ <-. eexists. cbn [service vector_service calls].
    split_and!; [done..|]. by rewrite <-!app_assoc.
Qed.

(** X19. How [ask] composes its stages: the answer it returns comes from
    one search for twice the effective [top_k]; unless the search found
    nothing, the answer text is synthesized from the first [top_k]
    documents of the reranked search result and the sources are built from
    those same documents, one source per document, in order. *)
Theorem ask_composes_pipeline (q : str) (top_k : option Z) (m m' : machine)
    (out : AnswerResult) :
  ask encode cos_sim float_repr VectorService_new initialize q top_k m
    = (Ok out, m') →
  ∃ vs documents,
    vector_service (service m') = Some vs ∧
    hybrid_search vs q (top_k_or top_k (top_k_default (service m)) * 2)
      = Ok documents ∧
    match documents with
    | [] => out = {| answer := FALLBACK_MESSAGE; sources := [] |}
    | _ =>
      ∃ ranked,
        rerank_documents_with_similarity encode cos_sim q documents
          = Ok ranked ∧
        generate_rag_response float_repr q
          (slice_to (top_k_or top_k (top_k_default (service m))) ranked)
          = Ok (answer out) ∧
        Forall2 (λ d s, source_of d = Ok s)
          (slice_to (top_k_or top_k (top_k_default (service m))) ranked)
          (sources out)
    end.
Proof.
  intros Hask.
  destruct (ask_Ok _ _ _ _ _ q top_k m m' out Hask)
    as (m1 & m2 & documents & Hstart & Hsearch).
  rewrite (ask_after_search _ _ _ _ _ q top_k m m1 m2 documents Hstart Hsearch)
    in Hask.
  assert (∃ vs, vector_service (service m1) = Some vs) as [vs Hvs].
  { apply startup_Ok in Hstart as [(vs & Hvs & ->)|(vs & _ & _ & _ & ->)];
      by exists vs. }
  rewrite search_run, Hvs in Hsearch. injection Hsearch as Hdocs <-.
  exists vs, documents.
  destruct documents as [|d documents].
  { injection Hask as <- <-. by split_and!. }
  cbv zeta in Hask.
  destruct (rerank_documents_with_similarity _ _ _ _) as [ranked|]; [|done].
  destruct (generate_rag_response _ _ _) as [answer|] eqn:Hgen; [|done].
  destruct (mapM_from _ _ _) as [srcs|] eqn:Hsrcs; [|done].
  injection Hask as <- <-. split_and!; [done..|].
  exists ranked. split_and!; [done..|]. cbn [sources].
  apply mapM_from_Ok in Hsrcs.
  eapply Forall2_impl; [exact Hsrcs|]. by intros d' s [_ ?].
Qed.

Lemma source_of_has_text (d : doc) (s : Source) :
  has_text d → source_of d = Ok s → content_preview s ≠ [].
Proof.
  unfold has_text, source_of, py_slice_to.
  destruct (get_or d "section_text" (VStr [])) as [|t| |]; try done.
  intros Ht [= <-]. cbn [content_preview]. rewrite slice_to_nonneg by done.
  destruct t; [done|]. by cbn.
Qed.

(** X20. No source returned by [ask] has an empty content preview: the
    reranker has dropped the documents without text before the sources are
    built. *)
Theorem ask_sources_have_text (q : str) (top_k : option Z) (m m' : machine)
    (out : AnswerResult) :
  ask encode cos_sim float_repr VectorService_new initialize q top_k m
    = (Ok out, m') →
  Forall (λ s, content_preview s ≠ []) (sources out).
Proof.
  intros Hask.
  destruct (ask_Ok _ _ _ _ _ q top_k m m' out Hask)
    as (m1 & m2 & documents & Hstart & Hsearch).
  rewrite (ask_after_search _ _ _ _ _ q top_k m m1 m2 documents Hstart Hsearch)
    in Hask.
  destruct documents as [|d documents].
  { injection Hask as <- _. constructor. }
  cbv zeta in Hask.
  pose proof (rerank_similarity_cases encode cos_sim q (d :: documents))
    as Hrank.
  destruct (rerank_documents_with_similarity _ _ _ _) as [ranked|]; [|done].
  destruct (generate_rag_response _ _ _) as [answer|]; [|done].
  destruct (mapM_from _ _ _) as [srcs|] eqn:Hsrcs; [|done].
  injection Hask as <- _. cbn [sources].
  assert (Hsel : Forall (λ d, has_text d)
            (slice_to (top_k_or top_k (top_k_default (service m))) ranked)).
  { assert (Forall (λ d, has_text d) ranked).
    { rewrite Hrank. apply Forall_forall.
      by intros d' [? _]%list_elem_of_filter. }
    unfold slice_to. by destruct (_ <=? _)%Z; apply Forall_take. }
  apply mapM_from_Ok in Hsrcs.
  induction Hsrcs as [|d' s ds ss [_ Hs] _ IH]; [constructor|].
  apply Forall_cons in Hsel as [Hd Hsel].
  constructor; [by eapply source_of_has_text|by apply IH].
Qed.

(** X21. A failing search is not turned into the fallback answer: when
    the service is ready, or starts up, and the search raises, [ask]
    raises the same error, after the startup (if any) and the search, and
    without reranking or synthesizing. *)
Theorem ask_propagates_search_failure (q : str) (top_k : option Z)
    (m : machine) (vs : VectorService) (e : exn) :
  vector_service (service m) = Some vs ∨
  (vector_service (service m) = None ∧
   VectorService_new = Ok vs ∧ initialize vs = Ok tt) →
  hybrid_search vs q (top_k_or top_k (top_k_default (service m)) * 2)
    = Raise e →
  ∃ m' started,
    ask encode cos_sim float_repr VectorService_new initialize q top_k m
      = (Raise e, m') ∧
    (started = [] ∨ started = [CallStartup]) ∧
    calls m' = calls m ++ started ++
      [CallHybridSearch q (top_k_or top_k (top_k_default (service m)) * 2)].
Proof.
  intros Hready Hfail.
  destruct Hready as [Hvs|(Hvs & Hnew & Hinit)].
  - pose proof (startup_ready VectorService_new initialize m vs Hvs) as Hstart.
    eexists _, []. split_and!; [|by left|].
    + eapply ask_search_raises; [done|].
      rewrite search_run, Hvs, Hfail. done.
    + done.
  - pose proof (startup_fresh VectorService_new initialize m vs Hvs Hnew Hinit)
      as Hstart.
    eexists _, [CallStartup]. split_and!; [|by right|].
    + eapply ask_search_raises; [done|].
      rewrite search_run. cbn [service vector_service calls].
      rewrite Hfail. done.
    + cbn [calls]. by rewrite <-app_assoc.
Qed.
End LifecycleFacts.

(** ** Collection setup *)

Ltac log_inv H :=
  repeat (apply elem_of_cons in H as [H|H];
          [first [discriminate H | injection H as -> -> -> | injection H as ->
                 | idtac]|]);
  try (by apply elem_of_nil in H).

Ltac log_elem :=
  repeat first [apply list_elem_of_here | apply list_elem_of_further].

(** X22. When the collection exists and can be described, setup makes
    these two calls only: it neither drops nor creates anything, however
    often it is run. *)
Theorem setup_leaves_healthy_collection (self : VectorService)
    (client : MilvusAdmin) :
  has_collection client (collection_name self) = Ok true →
  describe_collection client (collection_name self) = Ok tt →
  _setup_collection self client =
    (Ok tt, [HasCollection (collection_name self);
             DescribeCollection (collection_name self)]).
Proof.
  intros Hhas Hdesc. unfold _setup_collection, invoke, try_except.
  cbn [mbind Admin_bind mret Admin_ret]. rewrite Hhas. cbn.
  by rewrite Hdesc.
Qed.

(** The run of setup, by the outcomes of the client's methods. *)
Lemma setup_run (self : VectorService) (client : MilvusAdmin) :
  let name := collection_name self in
  let create :=
    create_collection client name (collection_schema self) collection_index in
  let created :=
    CreateCollection name (collection_schema self) collection_index in
  _setup_collection self client =
  match has_collection client name with
  | Raise e => (Raise e, [HasCollection name])
  | Ok false => (create, [HasCollection name; created])
  | Ok true =>
    match describe_collection client name with
    | Ok _ => (Ok tt, [HasCollection name; DescribeCollection name])
    | Raise _ =>
      match drop_collection client name with
      | Ok _ =>
        (create, [HasCollection name; DescribeCollection name;
                  DropCollection name; created])
      | Raise e =>
        (Raise e, [HasCollection name; DescribeCollection name;
                   DropCollection name])
      end
    end
  end.
Proof.
  cbv zeta. unfold _setup_collection, invoke, try_except.
  destruct (has_collection client (collection_name self)) as [[|]|e0];
    [|done|done].
  destruct (describe_collection client (collection_name self)) as [[]|e1];
    [done|].
  by destruct (drop_collection client (collection_name self)) as [[]|e2].
Qed.

(** X23. What setup may do to the store: it touches the collection of the
    service only; it drops it only when it exists and cannot be described;
    it creates it, with the schema of the service, only when it does not
    exist or has just been dropped; and it succeeds exactly when the
    collection is there in the end. *)
Theorem setup_calls_are_guarded (self : VectorService) (client : MilvusAdmin) :
  let name := collection_name self in
  let run := _setup_collection self client in
  (∀ n, DropCollection n ∈ run.2 →
        n = name ∧ has_collection client name = Ok true ∧
        ∃ e, describe_collection client name = Raise e) ∧
  (∀ n schema index, CreateCollection n schema index ∈ run.2 →
        n = name ∧ schema = collection_schema self ∧ index = collection_index ∧
        (has_collection client name = Ok false ∨
         drop_collection client name = Ok tt ∧ DropCollection name ∈ run.2)) ∧
  (run.1 = Ok tt ↔
     (has_collection client name = Ok true ∧
      describe_collection client name = Ok tt) ∨
     (CreateCollection name (collection_schema self) collection_index ∈ run.2 ∧
      create_collection client name (collection_schema self) collection_index
        = Ok tt)).
Proof.
  cbv zeta. rewrite setup_run. cbv zeta.
  destruct (has_collection client (collection_name self)) as [[|]|e0];
    [destruct (describe_collection client (collection_name self)) as [[]|e1];
      [|destruct (drop_collection client (collection_name self)) as [[]|e2]]
    | |]; cbn [fst snd]; refine (conj _ (conj _ _)).
  all: try (intros n Hn; log_inv Hn; fail).
  all: try (intros n Hn; log_inv Hn;
            refine (conj eq_refl (conj eq_refl _)); by eexists).
  all: try (intros n schema index Hn; log_inv Hn; fail).
  all: try (intros n schema index Hn; log_inv Hn;
            refine (conj eq_refl (conj eq_refl (conj eq_refl _)));
            first [by left|right; split; [done|log_elem]]).
  all: split.
  all: try (intros _; by left).
  all: try (intros Hc; right; split; [log_elem|done]).
  all: try discriminate.
  all: intros [[H1 H2]|[H1 H2]]; try discriminate; try done; log_inv H1.
Qed.

(** ** The benchmark wrapper *)
Section BenchFacts.
Variable float_repr : float → str.
Variable exn_message : exn → str.
Variable is_decimal : char → bool.
Variable float_of_str : str → float.
Variable chat_completion : nat → list doc → result doc.
Variable chat_answer : list doc → result doc.

Lemma bench_preview_length (text : pyval) (p : str) :
  bench_preview text = Ok p → length p ≤ 203.
Proof.
  unfold bench_preview, py_len, py_slice_to.
  destruct text as [|s| |]; try done. cbn [mbind result_bind].
  destruct (200 <? length s) eqn:Hlen.
  - intros [= <-]. rewrite slice_to_nonneg by done.
    rewrite length_app, length_take. cbn [length]. lia.
  - intros [= <-]. apply Nat.ltb_ge in Hlen. lia.
Qed.

Lemma bench_source_of_total (d : doc) :
  text_absent_or_str d → ∃ s, bench_source_of d = Ok s.
Proof.
  intros [t Ht]%text_absent_or_str_get. unfold bench_source_of.
  rewrite Ht. unfold bench_preview, py_len, py_slice_to.
  cbn [mbind result_bind]. destruct (200 <? length t); by eexists.
Qed.

Lemma bench_source_of_Raise (d : doc) (e : exn) :
  bench_source_of d = Raise e → e = TypeError ∧ ¬ text_absent_or_str d.
Proof.
  intros He. split.
  - unfold bench_source_of, bench_preview, py_len, py_slice_to in He.
    destruct (get_or d "section_text" (VStr [])) as [|t| |];
      try by injection He as <-.
    cbn [mbind result_bind] in He. by destruct (200 <? length t).
  - intros [s Hs]%bench_source_of_total. congruence.
Qed.

(** X24. The benchmark wrapper never lists more than three sources, and
    the content preview of each is at most 203 characters long (200 of the
    text and the marker). *)
Theorem bench_ask_sources_bounded (vs : VectorService) (q : str)
    (use_reranking : bool) :
  length (bench_sources
            (bench_ask float_repr exn_message is_decimal float_of_str
               chat_completion chat_answer vs q use_reranking)) ≤ 3 ∧
  Forall (λ s, length (bench_content_preview s) ≤ 203)
    (bench_sources
       (bench_ask float_repr exn_message is_decimal float_of_str
          chat_completion chat_answer vs q use_reranking)).
Proof.
  unfold bench_ask.
  destruct (bench_ask_body _ _ _ _ _ _ _ _ _) as [out|e] eqn:Hbody;
    [|by split; [cbn; lia|constructor]].
  unfold bench_ask_body in Hbody.
  apply bind_Ok in Hbody as (docs & _ & Hout).
  destruct docs as [|d docs].
  { injection Hout as <-. by split; [cbn; lia|constructor]. }
  apply bind_Ok in Hout as (srcs & Hsrcs & [= <-]). cbn [bench_sources].
  apply mapM_from_Ok in Hsrcs. split.
  - rewrite <-(Forall2_length _ _ _ Hsrcs).
    destruct use_reranking; rewrite slice_to_nonneg by done;
      rewrite length_take; lia.
  - clear -Hsrcs. induction Hsrcs as [|d' s ds ss [_ Hs] _ IH];
      constructor; [|done].
    unfold bench_source_of in Hs. apply bind_Ok in Hs as (p & Hp & [= <-]).
    by eapply bench_preview_length.
Qed.

(** X25. The cases of the benchmark wrapper, which never raises.  It
    searches for six candidates.  When the search raises it reports the
    error in its response, and when the search finds nothing it answers
    with a fixed message; both times without sources.  Otherwise it keeps
    the first three documents, reranked or not, and returns the generated
    answer with one source per document, in order; but when one of those
    three carries a text that is not a string, the generated answer is
    discarded for an error message without sources. *)
Theorem bench_ask_cases (vs : VectorService) (q : str) (use_reranking : bool) :
  let ask :=
    bench_ask float_repr exn_message is_decimal float_of_str
      chat_completion chat_answer vs q use_reranking in
  match hybrid_search vs q 6 with
  | Raise e =>
    ask = {| bench_response :=
               VStr (lit "Error processing query: " ++ exn_message e);
             bench_sources := [] |}
  | Ok [] =>
    ask = {| bench_response := VStr NOT_FOUND_MESSAGE; bench_sources := [] |}
  | Ok docs =>
    let final :=
      take 3 (if use_reranking
              then _rerank_documents_with_model is_decimal float_of_str
                     chat_completion q docs
              else docs) in
    (Forall text_absent_or_str final →
     bench_response ask
       = _generate_rag_response_with_model float_repr exn_message
           chat_answer q final ∧
     Forall2 (λ d s, bench_source_of d = Ok s) final (bench_sources ask)) ∧
    (¬ Forall text_absent_or_str final →
     ask = {| bench_response :=
                VStr (lit "Error processing query: " ++ exn_message TypeError);
              bench_sources := [] |})
  end.
Proof.
  cbv zeta. unfold bench_ask, bench_ask_body.
  destruct (hybrid_search vs q 6) as [[|d docs]|e]; [done| |done].
  cbn [mbind result_bind].
  set (final := take 3 (if use_reranking then _ else _)).
  assert (Hfinal :
    (if use_reranking
     then slice_to 3 (_rerank_documents_with_model is_decimal float_of_str
                        chat_completion q (d :: docs))
     else slice_to 3 (d :: docs)) = final).
  { unfold final. by destruct use_reranking; rewrite slice_to_nonneg. }
  rewrite Hfinal. clearbody final. clear Hfinal. split.
  - intros Hok.
    destruct (mapM_from_total (λ _, bench_source_of) 0 final) as [srcs Hs].
    { eapply Forall_impl; [exact Hok|]. intros d' Hd' _.
      by apply bench_source_of_total. }
    rewrite Hs. cbn [mbind result_bind bench_response bench_sources].
    split; [done|]. apply mapM_from_Ok in Hs.
    eapply Forall2_impl; [exact Hs|]. by intros d' s [_ ?].
  - intros Hbad.
    destruct (mapM_from (λ _, bench_source_of) 0 final) as [srcs|e] eqn:Hs.
    + destruct Hbad. apply mapM_from_Ok in Hs. clear -Hs.
      induction Hs as [|d' s ds ss [_ Hd] _ IH]; constructor; [|done].
      unfold bench_source_of in Hd.
      apply bind_Ok in Hd as (p & Hp & _).
      unfold text_absent_or_str. unfold get_or in Hp.
      by destruct (d' !! "section_text") as [[| | |]|].
    + apply mapM_from_Raise_inv in Hs as (d' & j & _ & Hd).
      by apply bench_source_of_Raise in Hd as [-> _].
Qed.
End BenchFacts.

(** ** The diagnosis context *)

Lemma LLMProvider_getitem_OPEN_AI (name : pyval) :
  LLMProvider_getitem name = Some OPEN_AI → name = VStr (lit "OPEN_AI").
Proof.
  destruct name as [|s| |]; try done. unfold LLMProvider_getitem.
  repeat case_bool_decide; try done. by subst.
Qed.

(** X26. A diagnosis context is constructed for the provider named
    "OPEN_AI" only, with the client made from the given key and model.
    The four other declared providers raise [NotImplementedError], any
    other name (or a missing one) raises [KeyError], and in both cases no
    client is constructed; an error of the client constructor is passed
    on. *)
Theorem diagnose_context_needs_open_ai (LLM : Type)
    (ChatOpenAI : pyval → pyval → result LLM) (provider model key : pyval) :
  match DiagnoseContext_init LLM ChatOpenAI provider model key with
  | inr ctx =>
    provider = VStr (lit "OPEN_AI") ∧
    llm_provider LLM ctx = OPEN_AI ∧
    llm_provider_model LLM ctx = model ∧
    llm_provider_key LLM ctx = key ∧
    ChatOpenAI key model = Ok (llm LLM ctx)
  | inl ProviderKeyError => LLMProvider_getitem provider = None
  | inl NotImplementedError =>
    ∃ p, LLMProvider_getitem provider = Some p ∧ p ≠ OPEN_AI
  | inl (ClientError e) =>
    provider = VStr (lit "OPEN_AI") ∧ ChatOpenAI key model = Raise e
  end.
Proof.
  unfold DiagnoseContext_init, get_llm.
  destruct (LLMProvider_getitem provider) as [p|] eqn:Hp; [|done].
  destruct p; try by eexists.
  apply LLMProvider_getitem_OPEN_AI in Hp.
  by destruct (ChatOpenAI key model).
Qed.

(** * The further properties on the sample deployment *)

(** The sample encoder and similarity never give NaN. *)
Lemma sample_similarities_not_nan (q : str) (docs : list doc) :
  similarities_not_nan Sample.encode Sample.cos_sim q docs.
Proof.
  intros qe d emb _ _. destruct (get_or d "section_text" (VStr [])); try done.
  intros [= <-]. unfold Sample.cos_sim. simpl. by destruct (20 <? _).
Qed.

Lemma ranked_batch_descends :
  similarities_not_nan Sample.encode Sample.cos_sim (lit "mastite")
    [Sample.mastite; Sample.bvd; Sample.brucelose] ∧
  rerank_documents_with_similarity Sample.encode Sample.cos_sim (lit "mastite")
    [Sample.mastite; Sample.bvd; Sample.brucelose] = Ok Scenario.ranked_batch ∧
  ∃ scores,
    Forall2
      (λ d s, ∃ qe, Sample.encode (VStr (lit "mastite")) = Ok qe ∧
                    similarity_of Sample.encode Sample.cos_sim qe d s)
      Scenario.ranked_batch scores ∧
    descending id scores ∧
    ∀ i j x y,
      i < j → scores !! i = Some x → scores !! j = Some y →
      (y <=? x)%float = true.
Proof.
  pose proof (sample_similarities_not_nan (lit "mastite")
                [Sample.mastite; Sample.bvd; Sample.brucelose]) as Hnan.
  assert (H : rerank_documents_with_similarity Sample.encode Sample.cos_sim
            (lit "mastite") [Sample.mastite; Sample.bvd; Sample.brucelose]
          = Ok Scenario.ranked_batch) by reflexivity.
  split; [exact Hnan|]. split; [exact H|].
  exact (rerank_similarity_descending _ _ _ _ _ Hnan H).
Defined.

Lemma ranked_batch_is_fixed :
  similarities_not_nan Sample.encode Sample.cos_sim (lit "mastite")
    [Sample.mastite; Sample.bvd; Sample.brucelose] ∧
  rerank_documents_with_similarity Sample.encode Sample.cos_sim (lit "mastite")
    [Sample.mastite; Sample.bvd; Sample.brucelose] = Ok Scenario.ranked_batch ∧
  similarities_not_nan Sample.encode Sample.cos_sim (lit "mastite")
    Scenario.ranked_batch ∧
  rerank_documents_with_similarity Sample.encode Sample.cos_sim (lit "mastite")
    Scenario.ranked_batch = Ok Scenario.ranked_batch.
Proof.
  pose proof (sample_similarities_not_nan (lit "mastite")
                [Sample.mastite; Sample.bvd; Sample.brucelose]) as Hnan.
  assert (H : rerank_documents_with_similarity Sample.encode Sample.cos_sim
            (lit "mastite") [Sample.mastite; Sample.bvd; Sample.brucelose]
          = Ok Scenario.ranked_batch) by reflexivity.
  split; [exact Hnan|]. split; [exact H|].
  exact (rerank_similarity_idempotent _ _ _ _ _ Hnan H).
Defined.

Lemma untyped_is_not_text : ¬ text_absent_or_str Scenario.untyped.
Proof. exact (λ H, H). Qed.

Lemma untyped_record_disables_model_rerank :
  Exists (λ d, ¬ text_absent_or_str d) [Sample.mastite; Scenario.untyped] ∧
  _rerank_documents_with_model Sample.is_decimal Sample.float_of_str
    Sample.chat_completion (lit "mastite") [Sample.mastite; Scenario.untyped]
  = [Sample.mastite; Scenario.untyped].
Proof.
  assert (H : Exists (λ d, ¬ text_absent_or_str d)
                [Sample.mastite; Scenario.untyped]).
  { apply Exists_cons_tl, Exists_cons_hd, untyped_is_not_text. }
  split; [exact H|].
  exact (rerank_model_aborts_on_untyped_text _ _ _ _ _ H).
Defined.

Lemma blank_query_searches_with_zeros :
  Forall (λ c, py_isspace c) [32; 9]%N ∧
  hybrid_search Scenario.ready_service [32; 9]%N 6 =
  (results ← client_search Scenario.ready_service
               (repeat 0%float (embedding_dim Scenario.ready_service)) 6;
   Ok (document_of_hit <$> hd [] results)).
Proof.
  assert (H : Forall (λ c, py_isspace c) [32; 9]%N) by (repeat constructor).
  split; [exact H|].
  exact (hybrid_search_blank_query _ _ _ H).
Defined.

Lemma positional_ids_of_two_records :
  match prepare_document Sample.float_repr Scenario.ready_service 0
          (delete "chunk_id" Sample.mastite),
        prepare_document Sample.float_repr Scenario.ready_service 1
          (delete "chunk_id" Sample.bvd) with
  | Ok r1, Ok r2 => row_id r1 ≠ row_id r2
  | _, _ => False
  end.
Proof.
  destruct (prepare_document _ _ 0 _) as [r1|e1] eqn:H1.
  - destruct (prepare_document _ _ 1 _) as [r2|e2] eqn:H2.
    + refine (positional_ids_distinct _ _ 0 1 _ _ r1 r2 _ _ _ H1 H2);
        [lia|exact I|exact I].
    + apply (f_equal succeeded) in H2. vm_compute in H2. discriminate.
  - apply (f_equal succeeded) in H1. vm_compute in H1. discriminate.
Defined.


Lemma startup_twice :
  startup (Ok Scenario.ready_service) Sample.initialize Sample.fresh
    = (Ok tt, Scenario.ready) ∧
  is_Some (vector_service (service Scenario.ready)) ∧
  startup (Ok Scenario.ready_service) Sample.initialize Scenario.ready
    = (Ok tt, Scenario.ready).
Proof.
  assert (H : startup (Ok Scenario.ready_service) Sample.initialize
                Sample.fresh = (Ok tt, Scenario.ready)) by reflexivity.
  split; [exact H|].
  exact (startup_idempotent _ _ _ _ H).
Defined.

Lemma failed_initialize_on_sample :
  ∃ m1,
    startup (Ok Scenario.ready_service) Scenario.failing_initialize
      Sample.fresh = (Raise (External 9), m1) ∧
    vector_service (service m1) = Some Scenario.ready_service ∧
    startup (Ok Scenario.ready_service) Scenario.failing_initialize m1
      = (Ok tt, m1) ∧
    ∀ q top_k r m2,
      ask Sample.encode Sample.cos_sim Sample.float_repr
        (Ok Scenario.ready_service) Scenario.failing_initialize q top_k m1
        = (r, m2) →
      ∃ rest,
        calls m2 = calls m1
          ++ CallHybridSearch q (top_k_or top_k (top_k_default (service m1)) * 2)
          :: rest.
Proof.
  exact (startup_keeps_uninitialized_service Sample.encode Sample.cos_sim
           Sample.float_repr (Ok Scenario.ready_service)
           Scenario.failing_initialize Sample.fresh Scenario.ready_service
           (External 9) eq_refl eq_refl eq_refl).
Defined.

Lemma ask_on_stopped_service :
  shutdown Scenario.ready = (Ok tt, Scenario.stopped) ∧
  match Scenario.run_ask Scenario.stopped "mastite" (Some 2%Z) with
  | (Ok out, m') =>
    ∃ vs rest,
      Ok Scenario.ready_service = Ok vs ∧ Sample.initialize vs = Ok tt ∧
      vector_service (service m') = Some vs ∧
      calls m' = calls Scenario.ready ++ CallStartup
        :: CallHybridSearch (lit "mastite")
             (top_k_or (Some 2%Z) (top_k_default (service Scenario.ready)) * 2)
        :: rest
  | (Raise _, _) => False
  end.
Proof.
  assert (H : shutdown Scenario.ready = (Ok tt, Scenario.stopped))
    by reflexivity.
  split; [exact H|].
  destruct (Scenario.run_ask Scenario.stopped "mastite" (Some 2%Z))
    as [[out|e] m'] eqn:Hrun.
  - unfold Scenario.run_ask in Hrun.
    exact (ask_after_shutdown_starts_up _ _ _ _ _ _ _ _ _ _ _ H Hrun).
  - apply (f_equal returned) in Hrun. vm_compute in Hrun. discriminate.
Defined.

Lemma ask_pipeline_on_corpus :
  match Scenario.run_ask Sample.fresh "mastite" (Some 2%Z) with
  | (Ok out, m') =>
    (∃ vs documents,
        vector_service (service m') = Some vs ∧
        hybrid_search vs (lit "mastite")
          (top_k_or (Some 2%Z) (top_k_default (service Sample.fresh)) * 2)
          = Ok documents ∧
        match documents with
        | [] => out = {| answer := FALLBACK_MESSAGE; sources := [] |}
        | _ =>
          ∃ ranked,
            rerank_documents_with_similarity Sample.encode Sample.cos_sim
              (lit "mastite") documents = Ok ranked ∧
            generate_rag_response Sample.float_repr (lit "mastite")
              (slice_to
                 (top_k_or (Some 2%Z) (top_k_default (service Sample.fresh)))
                 ranked) = Ok (answer out) ∧
            Forall2 (λ d s, source_of d = Ok s)
              (slice_to
                 (top_k_or (Some 2%Z) (top_k_default (service Sample.fresh)))
                 ranked)
              (sources out)
        end)
  | (Raise _, _) => False
  end.
Proof.
  destruct (Scenario.run_ask Sample.fresh "mastite" (Some 2%Z))
    as [[out|e] m'] eqn:Hrun.
  - unfold Scenario.run_ask in Hrun.
    exact (ask_composes_pipeline _ _ _ _ _ _ _ _ _ _ Hrun).
  - apply (f_equal returned) in Hrun. vm_compute in Hrun. discriminate.
Defined.

Lemma ask_sources_on_corpus_have_text :
  match Scenario.run_ask Sample.fresh "mastite" (Some 5%Z) with
  | (Ok out, _) =>
    length (sources out) = 5 ∧
    Forall (λ s, content_preview s ≠ []) (sources out)
  | (Raise _, _) => False
  end.
Proof.
  assert (Hlen :
    match Scenario.run_ask Sample.fresh "mastite" (Some 5%Z) with
    | (Ok out, _) => length (sources out) = 5
    | (Raise _, _) => False
    end) by (vm_compute; reflexivity).
  destruct (Scenario.run_ask Sample.fresh "mastite" (Some 5%Z))
    as [[out|e] m'] eqn:Hrun; [|exact Hlen].
  split; [exact Hlen|]. unfold Scenario.run_ask in Hrun.
  exact (ask_sources_have_text _ _ _ _ _ _ _ _ _ _ Hrun).
Defined.

Lemma ask_on_failing_store :
  ∃ m' started,
    ask Sample.encode Sample.cos_sim Sample.float_repr
      (Ok Scenario.failing_service) Sample.initialize (lit "mastite") None
      Sample.fresh = (Raise (External 7), m') ∧
    (started = [] ∨ started = [CallStartup]) ∧
    calls m' = calls Sample.fresh ++ started ++
      [CallHybridSearch (lit "mastite")
         (top_k_or None (top_k_default (service Sample.fresh)) * 2)].
Proof.
  apply (ask_propagates_search_failure _ _ _ _ _ _ _ _
           Scenario.failing_service).
  - right. split_and!; reflexivity.
  - reflexivity.
Defined.

Lemma setup_on_healthy_store :
  _setup_collection Scenario.ready_service Scenario.healthy_store =
    (Ok tt, [HasCollection (collection_name Scenario.ready_service);
             DescribeCollection (collection_name Scenario.ready_service)]).
Proof.
  exact (setup_leaves_healthy_collection Scenario.ready_service
           Scenario.healthy_store eq_refl eq_refl).
Defined.
